(** * convert_v2_to_v1: the v2 -> v1 affiliate-link converter

    A shallow embedding of [convert_v2_to_v1.py] and the properties of its
    normalisers, converters, file pipeline and batch driver.

    Python values are embedded as the JSON data domain ([value]); functions
    that can raise return a [result]; the file pipeline and the batch driver
    run in a state-and-exception monad over the output directory and the
    console.

    Text is modelled as [string], read as a sequence of code points
    U+0000..U+00FF: on that range [str.lower] and [str.strip] are the
    character-wise functions written out below, and the range is closed
    under both.

    The console is modelled by the kind of each line and the values it
    shows, not by its wording; the output directory by the document each
    file holds, not by its indented text. [json.loads] and the date of the
    run are parameters of the pipeline.

    The pipeline is given twice: first over an output directory that
    exists and takes every write, then, in [Fs], over a path that can be
    missing or a plain file and a [json.dump] that can raise. The two agree
    where the first applies ([fs_main_agrees]). *)

From Stdlib Require Import ZArith Bool List Ascii String Lia Floats.
Import ListNotations.

Set Warnings "-register-all".

Local Open Scope string_scope.

(** ** Text: the [str] methods the script calls *)

Module Str.

(** [str.lower] on one code point: A-Z, and the accented capitals
    U+00C0..U+00DE except the multiplication sign U+00D7, move up by 32. *)
Definition lower_char (c : ascii) : ascii :=
  let n := N_of_ascii c in
  if ((65 <=? n) && (n <=? 90) ||
      (192 <=? n) && (n <=? 222) && negb (n =? 215))%N
  then ascii_of_N (n + 32) else c.

(** The characters [str.strip] removes: TAB..CR, FS..US, space, NEL, NBSP. *)
Definition is_space (c : ascii) : bool :=
  let n := N_of_ascii c in
  ((9 <=? n) && (n <=? 13) || (28 <=? n) && (n <=? 32) ||
   (n =? 133) || (n =? 160))%N.

Fixpoint lower (s : string) : string :=
  match s with
  | EmptyString => EmptyString
  | String c s' => String (lower_char c) (lower s')
  end.

Fixpoint lstrip (s : string) : string :=
  match s with
  | EmptyString => EmptyString
  | String c s' => if is_space c then lstrip s' else s
  end.

Fixpoint rstrip (s : string) : string :=
  match s with
  | EmptyString => EmptyString
  | String c s' =>
      match rstrip s' with
      | EmptyString => if is_space c then EmptyString else String c EmptyString
      | r => String c r
      end
  end.

Definition strip (s : string) : string := rstrip (lstrip s).

(** [s.replace(a, b)] for one-character [a] and [b]. *)
Fixpoint replace (a b : ascii) (s : string) : string :=
  match s with
  | EmptyString => EmptyString
  | String c s' => String (if Ascii.eqb c a then b else c) (replace a b s')
  end.

(** [sub in s] *)
Fixpoint contains (sub s : string) : bool :=
  if String.prefix sub s then true
  else match s with
       | EmptyString => false
       | String _ s' => contains sub s'
       end.

(** [s.startswith(p)] *)
Definition startswith (p s : string) : bool := String.prefix p s.

(** A string with no leading space: what [lstrip] leaves alone. *)
Definition no_lead (s : string) : bool :=
  match s with
  | EmptyString => true
  | String c _ => negb (is_space c)
  end.

(** What [sub in s] decides. *)
Definition substring_of (sub s : string) : Prop :=
  exists pre suf, s = pre ++ sub ++ suf.

End Str.

(** The double quote. *)
Definition dquote : ascii := "034"%char.

(** ** Configuration *)

Definition VERSION : Z := 3.
Definition DEFAULT_AFFILIATE_TAG_AMAZON : string := "dormready-20".
Definition DEFAULT_AFFILIATE_TAG_WALMART : string := "dormready".
Definition DEFAULT_AFFILIATE_TAG_TARGET : string := "dormready".
Definition DEFAULT_AFFILIATE_TAG_OTHER : string := "dormready".

(** The badge table, in the order of the dict literal. *)
Definition BADGE_MAPPING : list (string * string) :=
  [ ("budget best-seller", "best_seller");
    ("best-seller", "best_seller");
    ("Amazon no.1 best-seller", "best_seller");
    ("amazons choice", "amazons_choice");
    ("amazon choice-style", "amazons_choice");
    ("budget pick", "budget_pick");
    ("dorm bundle", "dorm_bundle");
    ("adjustable luxury", "premium");
    ("premium adjustable", "premium");
    ("multiple options", "multiple_options");
    ("multiple styles", "multiple_options");
    ("heavy-duty", "heavy_duty");
    ("adjustable height", "adjustable");
    ("popular dorm upgrade", "popular");
    ("popular dorm lamp", "popular");
    ("plush comfort", "comfort");
    ("decor + luxe feel", "premium");
    ("top-rated", "top_rated");
    ("budget encasement", "budget_pick");
    ("soft & quiet", "comfort");
    ("allergy-friendly", "allergy_friendly");
    ("value pack", "value_pack");
    ("big-box option", "in_store");
    ("budget full-body", "budget_pick");
    ("budget set", "budget_pick");
    ("budget cozy", "budget_pick");
    ("large capacity", "large_capacity");
    ("many options", "multiple_options") ].

(** [table.get(key)] on a table keyed by strings. *)
Fixpoint table_get (key : string) (table : list (string * string)) : option string :=
  match table with
  | [] => None
  | (k, v) :: rest => if String.eqb k key then Some v else table_get key rest
  end.

(** ** The three normalisers, at the types of their annotations *)

Definition normalize_retailer (retailer : string) : string :=
  Str.strip (Str.lower retailer).

(** [badge: str | None]; [not badge] holds for [None] and for the empty string. *)
Definition normalize_badge (badge : option string) : option string :=
  match badge with
  | None => None
  | Some EmptyString => None
  | Some b =>
      let badge_lower := Str.strip (Str.lower b) in
      Some (match table_get badge_lower BADGE_MAPPING with
            | Some tag => tag
            | None => Str.replace "-" "_" (Str.replace " " "_" badge_lower)
            end)
  end.

Definition get_affiliate_tag (retailer : string) : string :=
  let retailer_lower := Str.lower retailer in
  if Str.contains "amazon" retailer_lower then DEFAULT_AFFILIATE_TAG_AMAZON
  else if Str.contains "walmart" retailer_lower then DEFAULT_AFFILIATE_TAG_WALMART
  else if Str.contains "target" retailer_lower then DEFAULT_AFFILIATE_TAG_TARGET
  else DEFAULT_AFFILIATE_TAG_OTHER.

(** ** Python values

    The values [json.loads] builds. A dict is its list of entries in
    insertion order; its keys are the hashable values. *)

Inductive key : Type :=
| KNone
| KBool (b : bool)
| KInt (n : Z)
| KFloat (f : float)
| KStr (s : string).

Inductive value : Type :=
| VNone
| VBool (b : bool)
| VInt (n : Z)
| VFloat (f : float)
| VStr (s : string)
| VList (l : list value)
| VDict (d : list (key * value)).

Definition dict : Type := list (key * value).

Inductive exn : Type :=
| JSONDecodeError
| KeyError (k : key)
| TypeError
| AttributeError
| IndexError
| OSError.

Inductive result (A : Type) : Type :=
| Ok (a : A)
| Raise (e : exn).

Arguments Ok {A} a.
Arguments Raise {A} e.

Definition bind {A B : Type} (c : result A) (k : A -> result B) : result B :=
  match c with
  | Ok a => k a
  | Raise e => Raise e
  end.

Declare Scope py_scope.
Delimit Scope py_scope with py.
Notation "x <- c ;; k" := (bind c (fun x => k))
  (at level 61, c at next level, right associativity) : py_scope.
Notation "' pat <- c ;; k" := (bind c (fun x => match x with pat => k end))
  (at level 61, pat pattern, c at next level, right associativity) : py_scope.

(** *** Key equality: [==] on hashable values

    [True == 1 == 1.0]; an int and a float compare by exact value; the one
    [nan] object [json.loads] returns is found again by identity. *)

Definition float_eq_Z (f : float) (z : Z) : bool :=
  match Prim2SF f with
  | S754_zero _ => (z =? 0)%Z
  | S754_finite s m e =>
      let mz := if s then Z.neg m else Z.pos m in
      if (0 <=? e)%Z then (z =? mz * 2 ^ e)%Z
      else ((Z.pos m mod 2 ^ (- e) =? 0) && (z =? mz / 2 ^ (- e)))%Z
  | _ => false
  end.

Definition float_key_eqb (f g : float) : bool :=
  PrimFloat.eqb f g || (PrimFloat.is_nan f && PrimFloat.is_nan g).

Definition key_eqb (a b : key) : bool :=
  match a, b with
  | KNone, KNone => true
  | KStr s, KStr t => String.eqb s t
  | KBool x, KBool y => Bool.eqb x y
  | KBool x, KInt n | KInt n, KBool x => (n =? (if x then 1 else 0))%Z
  | KBool x, KFloat f | KFloat f, KBool x => float_eq_Z f (if x then 1 else 0)
  | KInt n, KInt m => (n =? m)%Z
  | KInt n, KFloat f | KFloat f, KInt n => float_eq_Z f n
  | KFloat f, KFloat g => float_key_eqb f g
  | _, _ => false
  end.

(** [hash(v)]: lists and dicts are unhashable. *)
Definition to_key (v : value) : result key :=
  match v with
  | VNone => Ok KNone
  | VBool b => Ok (KBool b)
  | VInt n => Ok (KInt n)
  | VFloat f => Ok (KFloat f)
  | VStr s => Ok (KStr s)
  | VList _ | VDict _ => Raise TypeError
  end.

Definition of_key (k : key) : value :=
  match k with
  | KNone => VNone
  | KBool b => VBool b
  | KInt n => VInt n
  | KFloat f => VFloat f
  | KStr s => VStr s
  end.

(** *** Dict operations *)

Fixpoint dict_get (k : key) (d : dict) : option value :=
  match d with
  | [] => None
  | (k', v) :: rest => if key_eqb k' k then Some v else dict_get k rest
  end.

Definition dict_mem (k : key) (d : dict) : bool :=
  match dict_get k d with Some _ => true | None => false end.

(** [d[k] = v]: an existing key keeps its place; a new one goes last. *)
Fixpoint dict_set (k : key) (v : value) (d : dict) : dict :=
  match d with
  | [] => [(k, v)]
  | (k', v') :: rest =>
      if key_eqb k' k then (k', v) :: rest else (k', v') :: dict_set k v rest
  end.

Definition dict_keys (d : dict) : list key := map fst d.

(** *** The operations of the script on a value of any type *)

(** [bool(v)] *)
Definition truthy (v : value) : bool :=
  match v with
  | VNone => false
  | VBool b => b
  | VInt n => negb (n =? 0)%Z
  | VFloat f => negb (PrimFloat.eqb f 0%float)
  | VStr s => negb (String.eqb s EmptyString)
  | VList l => negb (Nat.eqb (List.length l) 0)
  | VDict d => negb (Nat.eqb (List.length d) 0)
  end.

(** [x[k]] for a string [k]: only a dict can be subscripted by a string. *)
Definition py_getitem (x : value) (k : string) : result value :=
  match x with
  | VDict d =>
      match dict_get (KStr k) d with
      | Some v => Ok v
      | None => Raise (KeyError (KStr k))
      end
  | _ => Raise TypeError
  end.

(** [x.get(k, default)]: only a dict has [get]. *)
Definition py_get (x : value) (k : string) (default : value) : result value :=
  match x with
  | VDict d =>
      Ok (match dict_get (KStr k) d with Some v => v | None => default end)
  | _ => Raise AttributeError
  end.

Definition is_str (k : string) (v : value) : bool :=
  match v with VStr s => String.eqb s k | _ => false end.

(** [k in x] for a string [k]: key of a dict, element of a list, substring
    of a string. *)
Definition py_in (k : string) (x : value) : result bool :=
  match x with
  | VDict d => Ok (dict_mem (KStr k) d)
  | VList l => Ok (existsb (is_str k) l)
  | VStr s => Ok (Str.contains k s)
  | _ => Raise TypeError
  end.

(** [x[k] = v] for a string [k]: only a dict accepts it. *)
Definition py_setitem (x : value) (k : string) (v : value) : result value :=
  match x with
  | VDict d => Ok (VDict (dict_set (KStr k) v d))
  | _ => Raise TypeError
  end.

Fixpoint chars (s : string) : list value :=
  match s with
  | EmptyString => []
  | String c s' => VStr (String c EmptyString) :: chars s'
  end.

(** [iter(x)]: the elements of a list, the keys of a dict, the characters of
    a string. *)
Definition py_iter (x : value) : result (list value) :=
  match x with
  | VList l => Ok l
  | VDict d => Ok (map of_key (dict_keys d))
  | VStr s => Ok (chars s)
  | _ => Raise TypeError
  end.

(** [x.keys()], [x.values()], [x[k]] for a key [k], [len(x)] *)
Definition py_keys (x : value) : result (list key) :=
  match x with
  | VDict d => Ok (dict_keys d)
  | _ => Raise AttributeError
  end.

Definition py_values (x : value) : result (list value) :=
  match x with
  | VDict d => Ok (map snd d)
  | _ => Raise AttributeError
  end.

Definition py_getitem_key (x : value) (k : key) : result value :=
  match x with
  | VDict d =>
      match dict_get k d with
      | Some v => Ok v
      | None => Raise (KeyError k)
      end
  | _ => Raise TypeError
  end.

Definition py_len (x : value) : result nat :=
  match x with
  | VList l => Ok (List.length l)
  | VDict d => Ok (List.length d)
  | VStr s => Ok (String.length s)
  | _ => Raise TypeError
  end.

(** The field [k] of a dict, if it has one. *)
Definition field (k : string) (x : value) : option value :=
  match x with
  | VDict d => dict_get (KStr k) d
  | _ => None
  end.

(** ** Link, item and category converters *)

Local Open Scope py_scope.

(** [s.lower().strip()] is reached only on a [str]; any other value has no
    [lower] attribute. *)
Definition call_normalize_retailer (retailer : value) : result string :=
  match retailer with
  | VStr s => Ok (normalize_retailer s)
  | _ => Raise AttributeError
  end.

Definition of_option_str (o : option string) : value :=
  match o with
  | Some s => VStr s
  | None => VNone
  end.

(** [normalize_badge(v)] on a value of any type: a falsy one returns [None]
    at the guard, a truthy one that is no [str] has no [lower] attribute. *)
Definition call_normalize_badge (badge : value) : result value :=
  match badge with
  | VStr s => Ok (of_option_str (normalize_badge (Some s)))
  | VNone => Ok (of_option_str (normalize_badge None))
  | other => if truthy other then Raise AttributeError else Ok VNone
  end.

(** [k in link and link[k] is not None], with the value when it holds. *)
Definition present_not_none (link : value) (k : string) : result (option value) :=
  has <- py_in k link ;;
  if has then
    v <- py_getitem link k ;;
    Ok (match v with VNone => None | _ => Some v end)
  else Ok None.

Definition convert_link (link : value) (priority_index : nat) : result value :=
  r <- py_get link "retailer" (VStr EmptyString) ;;
  retailer <- call_normalize_retailer r ;;
  url <- py_getitem link "url" ;;
  displayName <- py_get link "displayName" VNone ;;
  let v1_link : dict :=
    [ (KStr "retailer", VStr retailer);
      (KStr "url", url);
      (KStr "displayName", displayName);
      (KStr "affiliateTag", VStr (get_affiliate_tag retailer));
      (KStr "priority", VInt (Z.of_nat priority_index + 1)) ] in
  averageRating <- present_not_none link "averageRating" ;;
  let v1_link :=
    match averageRating with
    | Some v => dict_set (KStr "averageRating") v v1_link
    | None => v1_link
    end in
  reviewCount <- present_not_none link "reviewCount" ;;
  let v1_link :=
    match reviewCount with
    | Some v => dict_set (KStr "reviewCount") v v1_link
    | None => v1_link
    end in
  badge <- present_not_none link "badge" ;;
  match badge with
  | Some v =>
      b <- call_normalize_badge v ;;
      Ok (VDict (dict_set (KStr "badge") b v1_link))
  | None => Ok (VDict v1_link)
  end.

(** [[convert_link(link, idx) for idx, link in enumerate(links)]], from
    index [idx] on. *)
Fixpoint convert_links (links : list value) (idx : nat) : result (list value) :=
  match links with
  | [] => Ok []
  | link :: rest =>
      v1_link <- convert_link link idx ;;
      v1_rest <- convert_links rest (S idx) ;;
      Ok (v1_link :: v1_rest)
  end.

Definition convert_item (item : value) : result (value * value) :=
  item_id <- py_getitem item "id" ;;
  affiliate_links <- py_get item "affiliateLinks" (VList []) ;;
  links <- py_iter affiliate_links ;;
  v1_links <- convert_links links 0 ;;
  let v1_item := VDict [ (KStr "itemVersion", VInt 1); (KStr "links", VList v1_links) ] in
  Ok (item_id, v1_item).

(** The loop of [convert_category], over the items still to do. *)
Fixpoint convert_items (items : list value) (items_dict : dict) : result dict :=
  match items with
  | [] => Ok items_dict
  | item :: rest =>
      ' (item_id, item_config) <- convert_item item ;;
      k <- to_key item_id ;;
      convert_items rest (dict_set k item_config items_dict)
  end.

(** ** Files, console and the monad of the pipeline *)

(** An input file: its name and what [open] and [read] give, the text or
    the exception they raise. *)
Record file : Type := { name : string; content : result string }.

(** The lines the script prints. *)
Inductive message : Type :=
| Converting (file_name : string)
| Converted (file_name : string) (item_count link_count : nat)
| DecodeFailed (file_name : string)
| MissingField (file_name : string) (field : key)
| ConvertFailed (file_name : string) (e : exn)
| DirNotFound
| NoFiles
| Found (count : nat)
| Summary (success_count fail_count : nat).

(** What a run changes: the documents in the [v1] directory, by file name,
    and the console. *)
Record world : Type := { v1_dir : list (string * value); stdout : list message }.

(** A computation that changes the world and returns or raises; what it
    changed before raising stays changed. *)
Definition M (A : Type) : Type := world -> result A * world.

Definition ret {A : Type} (a : A) : M A := fun w => (Ok a, w).

Definition lift {A : Type} (r : result A) : M A := fun w => (r, w).

Definition mbind {A B : Type} (c : M A) (k : A -> M B) : M B :=
  fun w =>
    match c w with
    | (Ok a, w') => k a w'
    | (Raise e, w') => (Raise e, w')
    end.

Definition try_except {A : Type} (body : M A) (handler : exn -> M A) : M A :=
  fun w =>
    match body w with
    | (Ok a, w') => (Ok a, w')
    | (Raise e, w') => handler e w'
    end.

Declare Scope io_scope.
Delimit Scope io_scope with io.
Notation "x <- c ;; k" := (mbind c (fun x => k))
  (at level 61, c at next level, right associativity) : io_scope.
Notation "c ;; k" := (mbind c (fun _ => k))
  (at level 61, right associativity) : io_scope.

Definition print (m : message) : M unit :=
  fun w => (Ok tt, {| v1_dir := v1_dir w; stdout := stdout w ++ [m] |}).

(** A file written anew replaces the one of the same name. *)
Fixpoint file_put (file_name : string) (doc : value) (dir : list (string * value))
  : list (string * value) :=
  match dir with
  | [] => [(file_name, doc)]
  | (n, d) :: rest =>
      if String.eqb n file_name then (n, doc) :: rest
      else (n, d) :: file_put file_name doc rest
  end.

(** The [with open(...)] block of [convert_file] where [v1] is a directory
    and the write completes: the file then holds the document. [Fs.dump]
    below has the opening and the write apart, and the write that raises;
    [fs_main_agrees] relates the two. *)
Definition dump (file_name : string) (doc : value) : M unit :=
  fun w => (Ok tt, {| v1_dir := file_put file_name doc (v1_dir w); stdout := stdout w |}).

Section Run.

(** The date of the run, [datetime.now().strftime(...)] at import. *)
Variable TODAY : string.

(** [json.loads], of the standard library. *)
Variable json_loads : string -> result value.

Definition convert_category (v2_data : value) : result value :=
  category_id <- py_getitem v2_data "id" ;;
  items_array <- py_get v2_data "items" (VList []) ;;
  items <- py_iter items_array ;;
  items_dict <- convert_items items [] ;;
  Ok (VDict [ (KStr "categoryId", category_id);
              (KStr "version", VInt VERSION);
              (KStr "lastUpdated", VStr TODAY);
              (KStr "items", VDict items_dict) ]).

(** The parsing block of [convert_file], on the stripped text of the file:
    a text that starts with a double quote is a fragment [key: {...}] and is
    parsed inside braces; the first key becomes the [id] of its value unless
    the value has one. *)
Definition parse_v2 (content : string) : result value :=
  if Str.startswith (String dquote EmptyString) content then
    wrapped_data <- json_loads ("{" ++ content ++ "}") ;;
    keys <- py_keys wrapped_data ;;
    category_key <- match keys with
                    | [] => Raise IndexError
                    | k :: _ => Ok k
                    end ;;
    v2_data <- py_getitem_key wrapped_data category_key ;;
    has_id <- py_in "id" v2_data ;;
    if has_id then Ok v2_data
    else py_setitem v2_data "id" (of_key category_key)
  else json_loads content.

(** [sum(len(item[links]) for item in items.values())] *)
Fixpoint count_links (items : list value) : result nat :=
  match items with
  | [] => Ok 0
  | item :: rest =>
      links <- py_getitem item "links" ;;
      n <- py_len links ;;
      m <- count_links rest ;;
      Ok (n + m)
  end.

Local Close Scope py_scope.
Local Open Scope io_scope.

(** The body of the [try] of [convert_file]. *)
Definition convert_file_try (input : file) : M bool :=
  print (Converting (name input)) ;;
  raw <- lift (content input) ;;
  let content := Str.strip raw in
  v2_data <- lift (parse_v2 content) ;;
  v1_data <- lift (convert_category v2_data) ;;
  dump (name input) v1_data ;;
  items <- lift (py_getitem v1_data "items") ;;
  item_count <- lift (py_len items) ;;
  configs <- lift (py_values items) ;;
  link_count <- lift (count_links configs) ;;
  print (Converted (name input) item_count link_count) ;;
  ret true.

(** The three [except] clauses, in order; every exception of the body is an
    [Exception], so the last clause takes what the first two leave. *)
Definition convert_file_except (input : file) (e : exn) : M bool :=
  match e with
  | JSONDecodeError => print (DecodeFailed (name input)) ;; ret false
  | KeyError k => print (MissingField (name input) k) ;; ret false
  | _ => print (ConvertFailed (name input) e) ;; ret false
  end.

Definition convert_file (input : file) : M bool :=
  try_except (convert_file_try input) (convert_file_except input).

(** The loop of [main] over the files still to do. *)
Fixpoint convert_files (v2_files : list file) (success_count fail_count : nat)
  : M (nat * nat) :=
  match v2_files with
  | [] => ret (success_count, fail_count)
  | v2_file :: rest =>
      ok <- convert_file v2_file ;;
      if ok then convert_files rest (S success_count) fail_count
      else convert_files rest success_count (S fail_count)
  end.

(** [main], on the [v2] directory: [None] when it does not exist, else its
    [.json] files in sorted order. Returns the exit status. The summary
    block is the one line [Summary]. [v1] is taken to be a directory, which
    [mkdir(exist_ok=True)] leaves as it is; [Fs.main] below has the call and
    the other states of the path. *)
Definition main (v2_dir : option (list file)) : M Z :=
  match v2_dir with
  | None => print DirNotFound ;; ret 1%Z
  | Some v2_files =>
      match v2_files with
      | [] => print NoFiles ;; ret 1%Z
      | _ =>
          print (Found (List.length v2_files)) ;;
          counts <- convert_files v2_files 0 0 ;;
          print (Summary (fst counts) (snd counts)) ;;
          ret (if Nat.eqb (snd counts) 0 then 0%Z else 1%Z)
      end
  end.

Local Close Scope io_scope.
Local Open Scope py_scope.

(** *** What a file comes to

    The steps of the [try] that can raise on an input, without the world:
    read, parse, convert. *)
Definition conversion (input : file) : result value :=
  raw <- content input ;;
  v2_data <- parse_v2 (Str.strip raw) ;;
  convert_category v2_data.

Definition converts (input : file) : bool :=
  match conversion input with
  | Ok _ => true
  | Raise _ => false
  end.

(** The line an [except] clause prints. *)
Definition failure_message (file_name : string) (e : exn) : message :=
  match e with
  | JSONDecodeError => DecodeFailed file_name
  | KeyError k => MissingField file_name k
  | _ => ConvertFailed file_name e
  end.

(** The counts of the success line. *)
Definition item_count (v1_data : value) : nat :=
  match field "items" v1_data with
  | Some (VDict items) => List.length items
  | _ => 0
  end.

Definition link_count (v1_data : value) : nat :=
  match field "items" v1_data with
  | Some (VDict items) =>
      list_sum (map (fun entry =>
                       match field "links" (snd entry) with
                       | Some (VList links) => List.length links
                       | _ => 0
                       end) items)
  | _ => 0
  end.

(** The lines one file adds to the console, and the directory after it. *)
Definition file_log (input : file) : list message :=
  [ Converting (name input);
    match conversion input with
    | Ok v1_data =>
        Converted (name input) (item_count v1_data) (link_count v1_data)
    | Raise e => failure_message (name input) e
    end ].

Definition file_written (input : file) (dir : list (string * value))
  : list (string * value) :=
  match conversion input with
  | Ok v1_data => file_put (name input) v1_data dir
  | Raise _ => dir
  end.

End Run.

(** ** The pipeline over a file system that can refuse

    [dump] and [main] above take [v1] for a directory that exists and in
    which every write completes. Here the path [v1] is missing, a plain
    file or a directory; [main] makes the directory before it looks for
    files; a file is opened for writing, which cuts it to nothing, before
    [json.dump] writes into it, and [json.dump] can raise. [OSError]
    stands for its subclasses too. *)

Module Fs.

(** What a file of [v1] holds: a whole document, or what is left of a
    write that did not complete. *)
Inductive document : Type :=
| Written (doc : value)
| Partial.

Inductive node : Type :=
| Missing
| PlainFile
| Directory (files : list (string * document)).

Record world : Type := { v1 : node; stdout : list message }.

Definition M (A : Type) : Type := world -> result A * world.

Definition ret {A : Type} (a : A) : M A := fun w => (Ok a, w).

Definition lift {A : Type} (r : result A) : M A := fun w => (r, w).

Definition mbind {A B : Type} (c : M A) (k : A -> M B) : M B :=
  fun w =>
    match c w with
    | (Ok a, w') => k a w'
    | (Raise e, w') => (Raise e, w')
    end.

Definition try_except {A : Type} (body : M A) (handler : exn -> M A) : M A :=
  fun w =>
    match body w with
    | (Ok a, w') => (Ok a, w')
    | (Raise e, w') => handler e w'
    end.

Declare Scope fs_scope.
Delimit Scope fs_scope with fs.
Notation "x <- c ;; k" := (mbind c (fun x => k))
  (at level 61, c at next level, right associativity) : fs_scope.
Notation "c ;; k" := (mbind c (fun _ => k))
  (at level 61, right associativity) : fs_scope.

Definition print (m : message) : M unit :=
  fun w => (Ok tt, {| v1 := v1 w; stdout := (stdout w ++ [m])%list |}).

Fixpoint put (file_name : string) (d : document) (files : list (string * document))
  : list (string * document) :=
  match files with
  | [] => [(file_name, d)]
  | (n, d') :: rest =>
      if String.eqb n file_name then (n, d) :: rest
      else (n, d') :: put file_name d rest
  end.

Fixpoint get (file_name : string) (files : list (string * document))
  : option document :=
  match files with
  | [] => None
  | (n, d) :: rest => if String.eqb n file_name then Some d else get file_name rest
  end.

(** [v1_dir.mkdir(exist_ok=True)]: makes the directory when the path is
    missing, leaves a directory alone, raises [FileExistsError] on a plain
    file. *)
Definition mkdir : M unit :=
  fun w =>
    match v1 w with
    | Missing => (Ok tt, {| v1 := Directory []; stdout := stdout w |})
    | Directory _ => (Ok tt, w)
    | PlainFile => (Raise OSError, w)
    end.

(** [open(output_path, 'w')]: the file is there and empty from now on;
    without a directory to hold it the call raises. *)
Definition open_w (file_name : string) : M unit :=
  fun w =>
    match v1 w with
    | Directory files =>
        (Ok tt, {| v1 := Directory (put file_name Partial files);
                   stdout := stdout w |})
    | _ => (Raise OSError, w)
    end.

Section Run.

Variable TODAY : string.
Variable json_loads : string -> result value.

(** [json.dump] on a document: it returns, or it raises with the file
    left as far as it was written. *)
Variable json_dump : value -> result unit.

Local Open Scope fs_scope.

(** [json.dump(v1_data, f)] into the file opened before. *)
Definition dump (file_name : string) (doc : value) : M unit :=
  fun w =>
    match json_dump doc with
    | Ok _ =>
        (Ok tt,
         match v1 w with
         | Directory files =>
             {| v1 := Directory (put file_name (Written doc) files);
                stdout := stdout w |}
         | _ => w
         end)
    | Raise e => (Raise e, w)
    end.

Definition convert_file_try (input : file) : M bool :=
  print (Converting (name input)) ;;
  raw <- lift (content input) ;;
  let content := Str.strip raw in
  v2_data <- lift (parse_v2 json_loads content) ;;
  v1_data <- lift (convert_category TODAY v2_data) ;;
  open_w (name input) ;;
  dump (name input) v1_data ;;
  items <- lift (py_getitem v1_data "items") ;;
  item_count <- lift (py_len items) ;;
  configs <- lift (py_values items) ;;
  link_count <- lift (count_links configs) ;;
  print (Converted (name input) item_count link_count) ;;
  ret true.

Definition convert_file_except (input : file) (e : exn) : M bool :=
  match e with
  | JSONDecodeError => print (DecodeFailed (name input)) ;; ret false
  | KeyError k => print (MissingField (name input) k) ;; ret false
  | _ => print (ConvertFailed (name input) e) ;; ret false
  end.

Definition convert_file (input : file) : M bool :=
  try_except (convert_file_try input) (convert_file_except input).

Fixpoint convert_files (v2_files : list file) (success_count fail_count : nat)
  : M (nat * nat) :=
  match v2_files with
  | [] => ret (success_count, fail_count)
  | v2_file :: rest =>
      ok <- convert_file v2_file ;;
      if ok then convert_files rest (S success_count) fail_count
      else convert_files rest success_count (S fail_count)
  end.

Definition main (v2_dir : option (list file)) : M Z :=
  match v2_dir with
  | None => print DirNotFound ;; ret 1%Z
  | Some v2_files =>
      mkdir ;;
      match v2_files with
      | [] => print NoFiles ;; ret 1%Z
      | _ =>
          print (Found (List.length v2_files)) ;;
          counts <- convert_files v2_files 0 0 ;;
          print (Summary (fst counts) (snd counts)) ;;
          ret (if Nat.eqb (snd counts) 0 then 0%Z else 1%Z)
      end
  end.

Local Close Scope fs_scope.
Local Open Scope py_scope.

(** *** What a file comes to, in a directory

    The steps of the [try] that can raise once the file is open: the
    conversion, then [json.dump]. *)
Definition outcome (input : file) : result value :=
  v1_data <- conversion TODAY json_loads input ;;
  _ <- json_dump v1_data ;;
  Ok v1_data.

Definition succeeds (input : file) : bool :=
  match outcome input with
  | Ok _ => true
  | Raise _ => false
  end.

Definition log (input : file) : list message :=
  [ Converting (name input);
    match outcome input with
    | Ok v1_data =>
        Converted (name input) (item_count v1_data) (link_count v1_data)
    | Raise e => failure_message (name input) e
    end ].

Definition written (input : file) (files : list (string * document))
  : list (string * document) :=
  match conversion TODAY json_loads input with
  | Ok v1_data =>
      put (name input)
          (match json_dump v1_data with
           | Ok _ => Written v1_data
           | Raise _ => Partial
           end) files
  | Raise _ => files
  end.

End Run.

(** The files of [v1] once [mkdir] has returned. *)
Definition made (n : node) : list (string * document) :=
  match n with
  | Directory files => files
  | _ => []
  end.

(** A [json.dump] that always returns, and one on a full disk. *)
Definition writes : value -> result unit := fun _ => Ok tt.

Definition disk_full : value -> result unit := fun _ => Raise OSError.

(** A directory of whole documents. *)
Definition whole (dir : list (string * value)) : list (string * document) :=
  map (fun entry => (fst entry, Written (snd entry))) dir.

End Fs.

(** ** A reference [json.loads]

    The decoder of the standard library on the text of the model, to run
    the pipeline on concrete files; the properties below are proved for
    any [json_loads]. A [\u] escape above U+00FF names a character the
    text model does not have and is refused. *)

Module Json.

Definition backslash : ascii := "092"%char.

Definition is_ws (c : ascii) : bool :=
  let n := N_of_ascii c in
  ((n =? 32) || (n =? 9) || (n =? 10) || (n =? 13))%N.

Fixpoint skip_ws (s : string) : string :=
  match s with
  | EmptyString => EmptyString
  | String c s' => if is_ws c then skip_ws s' else s
  end.

Definition digit_of (c : ascii) : option Z :=
  let n := Z.of_N (N_of_ascii c) in
  if ((48 <=? n) && (n <=? 57))%Z then Some (n - 48)%Z else None.

Definition hex_of (c : ascii) : option N :=
  let n := N_of_ascii c in
  if ((48 <=? n) && (n <=? 57))%N then Some (n - 48)%N
  else if ((97 <=? n) && (n <=? 102))%N then Some (n - 87)%N
  else if ((65 <=? n) && (n <=? 70))%N then Some (n - 55)%N
  else None.

(** The digits at the head of [s]: their value after [acc], how many, and
    the rest. *)
Fixpoint scan_digits (s : string) (acc : Z) (count : nat) : Z * nat * string :=
  match s with
  | EmptyString => (acc, count, s)
  | String c s' =>
      match digit_of c with
      | Some d => scan_digits s' (10 * acc + d)%Z (S count)
      | None => (acc, count, s)
      end
  end.

(** [float(text)] for the decimal [m * 10 ^ e10]: the nearest double, ties
    to even. *)
Definition decimal_to_float (neg : bool) (m e10 : Z) : float :=
  SF2Prim
    (match m with
     | Zpos p =>
         if (0 <=? e10)%Z
         then binary_normalize prec emax
                (if neg then Z.neg p * 10 ^ e10 else Z.pos p * 10 ^ e10)%Z 0 false
         else SFdiv prec emax (S754_finite neg p 0)
                (S754_finite false (Z.to_pos (10 ^ (- e10))) 0)
     | _ => S754_zero neg
     end).

(** A number at the head of [s]: an optional minus, then 0 or digits that
    do not start with 0, then an optional point with digits, then an
    optional e or E with an optional sign and digits. An [int] without
    fraction and exponent, else a [float]. *)
Definition scan_number (s : string) : option (value * string) :=
  let (neg, s1) :=
    match s with
    | String "-" r => (true, r)
    | _ => (false, s)
    end in
  let integer :=
    match s1 with
    | String "0" r => Some (0%Z, r)
    | String c _ =>
        match digit_of c with
        | Some _ => let '(n, _, r) := scan_digits s1 0 0 in Some (n, r)
        | None => None
        end
    | EmptyString => None
    end in
  match integer with
  | None => None
  | Some (n, s2) =>
      let '(frac, places, s3) :=
        match s2 with
        | String "." r =>
            let '(f, count, r') := scan_digits r 0 0 in
            match count with
            | O => (None, O, s2)
            | _ => (Some f, count, r')
            end
        | _ => (None, O, s2)
        end in
      let '(exp, s4) :=
        match s3 with
        | String c r =>
            if (Ascii.eqb c "e" || Ascii.eqb c "E")%bool then
              let (eneg, r1) :=
                match r with
                | String "-" r' => (true, r')
                | String "+" r' => (false, r')
                | _ => (false, r)
                end in
              let '(e, count, r2) := scan_digits r1 0 0 in
              match count with
              | O => (None, s3)
              | _ => (Some (if eneg then - e else e)%Z, r2)
              end
            else (None, s3)
        | EmptyString => (None, s3)
        end in
      match frac, exp with
      | None, None => Some (VInt (if neg then - n else n), s4)
      | _, _ =>
          let f := match frac with Some f => f | None => 0%Z end in
          let e := match exp with Some e => e | None => 0%Z end in
          Some (VFloat (decimal_to_float neg
                          (n * 10 ^ Z.of_nat places + f)
                          (e - Z.of_nat places)), s4)
      end
  end.

Definition unescape (c : ascii) : option ascii :=
  if Ascii.eqb c dquote then Some dquote
  else if Ascii.eqb c backslash then Some backslash
  else if Ascii.eqb c "/" then Some "/"%char
  else if Ascii.eqb c "b" then Some "008"%char
  else if Ascii.eqb c "f" then Some "012"%char
  else if Ascii.eqb c "n" then Some "010"%char
  else if Ascii.eqb c "r" then Some "013"%char
  else if Ascii.eqb c "t" then Some "009"%char
  else None.

Definition hex4 (a b c d : ascii) : option N :=
  match hex_of a, hex_of b, hex_of c, hex_of d with
  | Some x, Some y, Some z, Some t => Some (((x * 16 + y) * 16 + z) * 16 + t)%N
  | _, _, _, _ => None
  end.

Definition cons_char (c : ascii) (r : option (string * string))
  : option (string * string) :=
  match r with
  | Some (s, rest) => Some (String c s, rest)
  | None => None
  end.

(** A string, from after its opening quote: its text and the rest after
    the closing quote. A raw control character is an error. *)
Fixpoint scan_string (s : string) : option (string * string) :=
  match s with
  | EmptyString => None
  | String c s' =>
      if Ascii.eqb c dquote then Some (EmptyString, s')
      else if Ascii.eqb c backslash then
        match s' with
        | EmptyString => None
        | String e s'' =>
            if Ascii.eqb e "u" then
              match s'' with
              | String h1 (String h2 (String h3 (String h4 rest))) =>
                  match hex4 h1 h2 h3 h4 with
                  | Some n =>
                      if (n <? 256)%N
                      then cons_char (ascii_of_N n) (scan_string rest)
                      else None
                  | None => None
                  end
              | _ => None
              end
            else
              match unescape e with
              | Some ch => cons_char ch (scan_string s'')
              | None => None
              end
        end
      else if (N_of_ascii c <? 32)%N then None
      else cons_char c (scan_string s')
  end.

(** [s] without its first [n] characters. *)
Fixpoint drop (n : nat) (s : string) : string :=
  match n, s with
  | S n', String _ s' => drop n' s'
  | _, _ => s
  end.

Definition scan_constant (s : string) : option (value * string) :=
  if String.prefix "NaN" s then Some (VFloat nan, drop 3 s)
  else if String.prefix "Infinity" s then Some (VFloat infinity, drop 8 s)
  else if String.prefix "-Infinity" s then Some (VFloat neg_infinity, drop 9 s)
  else None.

(** A value at the head of [s]; the elements of an array from the first
    character of an element on; the members of an object from after the
    opening quote of a key on. Members are collected as [dict(pairs)]
    does: a key given again keeps its place and takes the new value. *)
Fixpoint scan_value (fuel : nat) (s : string) : option (value * string) :=
  match fuel with
  | O => None
  | S fuel' =>
      match s with
      | EmptyString => None
      | String c s' =>
          if Ascii.eqb c dquote then
            match scan_string s' with
            | Some (text, rest) => Some (VStr text, rest)
            | None => None
            end
          else if Ascii.eqb c "{" then
            match skip_ws s' with
            | String c' r =>
                if Ascii.eqb c' "}" then Some (VDict [], r)
                else if Ascii.eqb c' dquote then scan_members fuel' r []
                else None
            | EmptyString => None
            end
          else if Ascii.eqb c "[" then
            match skip_ws s' with
            | String c' r =>
                if Ascii.eqb c' "]" then Some (VList [], r)
                else scan_elements fuel' (String c' r) []
            | EmptyString => None
            end
          else if String.prefix "null" s then Some (VNone, drop 4 s)
          else if String.prefix "true" s then Some (VBool true, drop 4 s)
          else if String.prefix "false" s then Some (VBool false, drop 5 s)
          else
            match scan_number s with
            | Some r => Some r
            | None => scan_constant s
            end
      end
  end
with scan_elements (fuel : nat) (s : string) (acc : list value)
  : option (value * string) :=
  match fuel with
  | O => None
  | S fuel' =>
      match scan_value fuel' s with
      | Some (v, rest) =>
          match skip_ws rest with
          | String c r =>
              if Ascii.eqb c "]" then Some (VList (rev (v :: acc)), r)
              else if Ascii.eqb c "," then scan_elements fuel' (skip_ws r) (v :: acc)
              else None
          | EmptyString => None
          end
      | None => None
      end
  end
with scan_members (fuel : nat) (s : string) (acc : dict)
  : option (value * string) :=
  match fuel with
  | O => None
  | S fuel' =>
      match scan_string s with
      | Some (k, rest) =>
          match skip_ws rest with
          | String c r =>
              if Ascii.eqb c ":" then
                match scan_value fuel' (skip_ws r) with
                | Some (v, rest') =>
                    match skip_ws rest' with
                    | String c' r' =>
                        if Ascii.eqb c' "}"
                        then Some (VDict (dict_set (KStr k) v acc), r')
                        else if Ascii.eqb c' "," then
                          match skip_ws r' with
                          | String q r'' =>
                              if Ascii.eqb q dquote
                              then scan_members fuel' r'' (dict_set (KStr k) v acc)
                              else None
                          | EmptyString => None
                          end
                        else None
                    | EmptyString => None
                    end
                | None => None
                end
              else None
          | EmptyString => None
          end
      | None => None
      end
  end.

(** [json.loads(s)]: one value between whitespace, and nothing after. *)
Definition loads (s : string) : result value :=
  match scan_value (2 * String.length s + 2) (skip_ws s) with
  | Some (v, rest) =>
      match skip_ws rest with
      | EmptyString => Ok v
      | _ => Raise JSONDecodeError
      end
  | None => Raise JSONDecodeError
  end.

(** Text written with an apostrophe for every double quote. *)
Definition quoted (s : string) : string := Str.replace "'" dquote s.

End Json.

(** ** The source schema

    The types of the fields the converters call methods on or iterate
    over. A field may be absent; the required ones are asked for apart. *)

Definition has_field (k : string) (x : value) : bool :=
  match x with
  | VDict d => dict_mem (KStr k) d
  | _ => false
  end.

Definition field_is (k : string) (p : value -> bool) (d : dict) : bool :=
  match dict_get (KStr k) d with
  | Some v => p v
  | None => true
  end.

Definition is_string (v : value) : bool :=
  match v with VStr _ => true | _ => false end.

Definition is_string_or_none (v : value) : bool :=
  match v with VStr _ | VNone => true | _ => false end.

Definition is_list_of (p : value -> bool) (v : value) : bool :=
  match v with VList l => forallb p l | _ => false end.

(** AffiliateLink: [retailer: string], [badge: string?] *)
Definition source_link (link : value) : bool :=
  match link with
  | VDict d =>
      field_is "retailer" is_string d && field_is "badge" is_string_or_none d
  | _ => false
  end.

(** Item: [id: string], [affiliateLinks: sequence of AffiliateLink] *)
Definition source_item (item : value) : bool :=
  match item with
  | VDict d =>
      field_is "id" is_string d
      && field_is "affiliateLinks" (is_list_of source_link) d
  | _ => false
  end.

(** Category: [items: sequence of Item] *)
Definition source_category (category : value) : bool :=
  match category with
  | VDict d => field_is "items" (is_list_of source_item) d
  | _ => false
  end.

(** The links of an item and the items of a category, none when the field
    is absent. *)
Definition item_links (item : value) : list value :=
  match item with
  | VDict d =>
      match dict_get (KStr "affiliateLinks") d with
      | Some (VList l) => l
      | _ => []
      end
  | _ => []
  end.

Definition category_items (category : value) : list value :=
  match category with
  | VDict d =>
      match dict_get (KStr "items") d with
      | Some (VList l) => l
      | _ => []
      end
  | _ => []
  end.

(** The required fields: [url] of every link, [id] of every item and of
    the category. *)
Definition item_complete (item : value) : bool :=
  has_field "id" item && forallb (has_field "url") (item_links item).

Definition category_complete (category : value) : bool :=
  has_field "id" category && forallb item_complete (category_items category).

(** A field that is present and not [None]. *)
Definition field_not_none (k : string) (x : value) : option value :=
  match field k x with
  | Some VNone => None
  | o => o
  end.

Definition priority_of (v1_link : value) : option value := field "priority" v1_link.

(** ** The destination LinkDoc of a well-typed link, field by field *)

Definition opt_entry (k : string) (o : option value) : dict :=
  match o with
  | Some v => [(KStr k, v)]
  | None => []
  end.

Definition retailer_of (link : value) : string :=
  match field "retailer" link with
  | Some (VStr s) => s
  | _ => EmptyString
  end.

Definition badge_tag (badge : value) : value :=
  match badge with
  | VStr s => of_option_str (normalize_badge (Some s))
  | _ => VNone
  end.

Definition link_doc (link : value) (priority_index : nat) (url : value) : dict :=
  ([ (KStr "retailer", VStr (normalize_retailer (retailer_of link)));
    (KStr "url", url);
    (KStr "displayName",
      match field "displayName" link with Some v => v | None => VNone end);
    (KStr "affiliateTag",
      VStr (get_affiliate_tag (normalize_retailer (retailer_of link))));
    (KStr "priority", VInt (Z.of_nat priority_index + 1)) ]
  ++ opt_entry "averageRating" (field_not_none "averageRating" link)
  ++ opt_entry "reviewCount" (field_not_none "reviewCount" link)
  ++ opt_entry "badge" (option_map badge_tag (field_not_none "badge" link)))%list.

(** ** Sample documents *)

Definition three_links : value :=
  VDict [ (KStr "id", VStr "desk-lamp");
          (KStr "affiliateLinks",
            VList [ VDict [ (KStr "retailer", VStr "Target");
                            (KStr "url", VStr "http://t");
                            (KStr "averageRating", VFloat 3.5) ];
                    VDict [ (KStr "retailer", VStr "Amazon");
                            (KStr "url", VStr "http://a");
                            (KStr "averageRating", VFloat 4.5);
                            (KStr "badge", VStr "top-rated") ];
                    VDict [ (KStr "url", VStr "http://w");
                            (KStr "reviewCount", VInt 7) ] ]) ].

Definition link_without_retailer : value :=
  VDict [ (KStr "url", VStr "http://x"); (KStr "badge", VStr "Value Pack") ].

Definition item_without_links : value :=
  VDict [ (KStr "id", VStr "desk-lamp"); (KStr "name", VStr "Desk lamp") ].

Definition category_without_items : value :=
  VDict [ (KStr "id", VStr "lighting"); (KStr "label", VStr "Lighting") ].

(** An ItemDoc: the version 1 and a list of links. *)
Definition is_item_doc (v : value) : Prop :=
  exists links, v = VDict [ (KStr "itemVersion", VInt 1);
                            (KStr "links", VList links) ].

(** The end-to-end example: the fragment, what [json.loads] makes of it
    inside braces, and the expected document. *)
Definition example_fragment : string :=
  Json.quoted
    "'bedding_sleep': {'label':'Bedding & Sleep','items':[{'id':'twin-xl-sheets','affiliateLinks':[{'retailer':'Amazon','url':'http://x','averageRating':4.5,'reviewCount':400000,'badge':'budget best-seller'}]}]}".

Definition example_wrapped : value :=
  VDict
    [ (KStr "bedding_sleep",
       VDict
         [ (KStr "label", VStr "Bedding & Sleep");
           (KStr "items",
            VList
              [ VDict
                  [ (KStr "id", VStr "twin-xl-sheets");
                    (KStr "affiliateLinks",
                     VList
                       [ VDict
                           [ (KStr "retailer", VStr "Amazon");
                             (KStr "url", VStr "http://x");
                             (KStr "averageRating", VFloat 4.5);
                             (KStr "reviewCount", VInt 400000);
                             (KStr "badge", VStr "budget best-seller") ] ]) ] ]) ]) ].

Definition example_output (run_date : string) : value :=
  VDict
    [ (KStr "categoryId", VStr "bedding_sleep");
      (KStr "version", VInt 3);
      (KStr "lastUpdated", VStr run_date);
      (KStr "items",
       VDict
         [ (KStr "twin-xl-sheets",
            VDict
              [ (KStr "itemVersion", VInt 1);
                (KStr "links",
                 VList
                   [ VDict
                       [ (KStr "retailer", VStr "amazon");
                         (KStr "url", VStr "http://x");
                         (KStr "displayName", VNone);
                         (KStr "affiliateTag", VStr "dormready-20");
                         (KStr "priority", VInt 1);
                         (KStr "averageRating", VFloat 4.5);
                         (KStr "reviewCount", VInt 400000);
                         (KStr "badge", VStr "best_seller") ] ]) ]) ]) ].

Definition newline : string := String "010"%char EmptyString.

Definition example_file : file :=
  {| name := "bedding_sleep.json";
     content := Ok ("  " ++ example_fragment ++ newline) |}.

Definition empty_world : world := {| v1_dir := []; stdout := [] |}.

(** A category in which the id [sheets] comes twice. *)
Definition repeated_id : value :=
  VDict
    [ (KStr "id", VStr "bedding");
      (KStr "items",
       VList
         [ VDict [ (KStr "id", VStr "sheets");
                   (KStr "affiliateLinks",
                    VList [ VDict [ (KStr "url", VStr "http://first") ] ]) ];
           VDict [ (KStr "id", VStr "pillow") ];
           VDict [ (KStr "id", VStr "sheets");
                   (KStr "affiliateLinks",
                    VList [ VDict [ (KStr "retailer", VStr "Walmart");
                                    (KStr "url", VStr "http://last") ] ]) ] ]) ].

(** A file whose second item has no id, a file that is no JSON, and a file
    with a full object. *)
Definition unnamed_item_file : file :=
  {| name := "desk.json";
     content :=
       Ok (Json.quoted
             "{'id': 'desk', 'items': [{'id': 'lamp'}, {'name': 'Desk mat'}]}") |}.

Definition malformed_file : file :=
  {| name := "broken.json"; content := Ok (Json.quoted "{'id': 'broken', ") |}.

Definition object_file : file :=
  {| name := "lighting.json";
     content :=
       Ok (Json.quoted
             "{'id': 'lighting', 'items': [{'id': 'lamp', 'affiliateLinks': [{'retailer': 'Target', 'url': 'http://t'}, {'retailer': 'IKEA', 'url': 'http://i', 'badge': null}]}]}") |}.

(** ** Predicates of the further properties *)

(** A character occurs in a string. *)
Fixpoint has_char (a : ascii) (s : string) : bool :=
  match s with
  | EmptyString => false
  | String c s' => Ascii.eqb c a || has_char a s'
  end.

(** The values [normalize_badge] returns for without raising: a string,
    [None], or any falsy value. *)
Definition badge_accepted (v : value) : bool :=
  match v with
  | VStr _ | VNone => true
  | other => negb (truthy other)
  end.

(** The links [convert_link] converts: a dict with a [url], whose
    [retailer], when present, is a string, and whose [badge], when
    present, is accepted by [normalize_badge]. *)
Definition link_accepted (link : value) : bool :=
  match link with
  | VDict d =>
      field_is "retailer" is_string d
      && dict_mem (KStr "url") d
      && field_is "badge" badge_accepted d
  | _ => false
  end.

(** The names of the keys a LinkDoc can have. *)
Definition link_doc_keys : list key :=
  [ KStr "retailer"; KStr "url"; KStr "displayName"; KStr "affiliateTag";
    KStr "priority"; KStr "averageRating"; KStr "reviewCount"; KStr "badge" ].

(** The string ids of a list of items, in order. *)
Definition item_ids (items : list value) : list string :=
  flat_map (fun item => match field "id" item with
                        | Some (VStr s) => [s]
                        | _ => []
                        end) items.

(** The distinct elements of a list, each at its first occurrence. *)
Definition add_once (seen : list key) (k : key) : list key :=
  if existsb (fun k' => key_eqb k' k) seen then seen else (seen ++ [k])%list.

Definition distinct_in_order (ids : list string) : list key :=
  fold_left add_once (map KStr ids) [].

(** The document a directory holds under a name. *)
Fixpoint file_get (file_name : string) (dir : list (string * value)) : option value :=
  match dir with
  | [] => None
  | (n, d) :: rest => if String.eqb n file_name then Some d else file_get file_name rest
  end.

(** No character of the string is stripped by [strip]. *)
Fixpoint no_space (s : string) : bool :=
  match s with
  | EmptyString => true
  | String c s' => negb (Str.is_space c) && no_space s'
  end.

Definition is_dict (v : value) : bool :=
  match v with VDict _ => true | _ => false end.

(** A fragment with two keys, and a fragment whose value is a list. *)
Definition two_key_text : string :=
  Json.quoted
    "'rugs': {'label': 'Rugs', 'items': []}, 'lamps': {'items': [{'id': 'lamp'}]}".

Definition two_key_fragment : file :=
  {| name := "rugs.json"; content := Ok two_key_text |}.

Definition list_fragment : file :=
  {| name := "list.json"; content := Ok (Json.quoted "'rugs': ['id', 'x']") |}.

(** The exceptions of a missing required field. *)
Definition missing_field (e : exn) : Prop :=
  e = KeyError (KStr "id") \/ e = KeyError (KStr "url").

(** An item with two links, and the same item with a link that has no
    [url] put second of four. *)
Definition two_links : list value :=
  [ VDict [ (KStr "url", VStr "http://a") ];
    VDict [ (KStr "url", VStr "http://b");
            (KStr "retailer", VStr "Amazon");
            (KStr "displayName", VStr "Lamp") ] ].

Definition two_links_item : dict :=
  [ (KStr "id", VInt 9); (KStr "affiliateLinks", VList two_links) ].

Definition bad_second_link_item : dict :=
  [ (KStr "id", VStr "lamp");
    (KStr "affiliateLinks",
     VList ([ VDict [ (KStr "url", VStr "http://a") ] ]
            ++ VDict [ (KStr "retailer", VStr "Target") ]
            :: [ VInt 5 ])) ].

(** A link whose retailer is a number, and a link with every field. *)
Definition numeric_retailer_link : value :=
  VDict [ (KStr "retailer", VInt 7) ].

Definition full_link : value :=
  VDict [ (KStr "url", VStr "http://t");
          (KStr "retailer", VStr " Target ");
          (KStr "reviewCount", VInt 12);
          (KStr "averageRating", VNone) ].

(** A category with an item that has no [id]. *)
Definition unnamed_item_category : value :=
  VDict [ (KStr "id", VStr "desk");
          (KStr "items", VList [ VDict [ (KStr "id", VStr "lamp") ];
                                 VDict [ (KStr "name", VStr "Desk mat") ] ]) ].

(** The three sample files, and a directory that holds an older document
    under the name of the malformed one. *)
Definition sample_files : list file :=
  [ example_file; malformed_file; object_file ].

Definition stale_world : world :=
  {| v1_dir := [ ("broken.json", VStr "an older document") ]; stdout := [] |}.

(** A directory of [v1] with older outputs of two of the sample files. *)
Definition older_outputs : list (string * Fs.document) :=
  [ ("broken.json", Fs.Written (VStr "an older document"));
    ("lighting.json", Fs.Written (VStr "an older lighting")) ].

(** * Properties *)

(** ** Text *)

Module StrFacts.
Import Str.

Lemma lower_char_idem (c : ascii) : lower_char (lower_char c) = lower_char c.
Proof. destruct c as [[] [] [] [] [] [] [] []]; reflexivity. Qed.

Lemma is_space_lower_char (c : ascii) : is_space (lower_char c) = is_space c.
Proof. destruct c as [[] [] [] [] [] [] [] []]; reflexivity. Qed.

Lemma lower_idem (s : string) : lower (lower s) = lower s.
Proof.
  induction s as [|c s IH]; simpl; [reflexivity|].
  now rewrite lower_char_idem, IH.
Qed.

Lemma lower_app (s t : string) : lower (s ++ t) = lower s ++ lower t.
Proof. induction s as [|c s IH]; simpl; [reflexivity|now rewrite IH]. Qed.

Lemma lower_lstrip (s : string) : lower (lstrip s) = lstrip (lower s).
Proof.
  induction s as [|c s IH]; simpl; [reflexivity|].
  rewrite is_space_lower_char. destruct (is_space c); [exact IH|reflexivity].
Qed.

Lemma lower_eq_empty (s : string) : lower s = EmptyString -> s = EmptyString.
Proof. destruct s; simpl; [reflexivity|discriminate]. Qed.

Lemma lower_rstrip (s : string) : lower (rstrip s) = rstrip (lower s).
Proof.
  induction s as [|c s IH]; simpl; [reflexivity|].
  rewrite <- IH, is_space_lower_char.
  destruct (rstrip s) as [|c' r]; simpl.
  - destruct (is_space c); reflexivity.
  - reflexivity.
Qed.

Lemma lower_strip (s : string) : lower (strip s) = strip (lower s).
Proof. unfold strip. now rewrite lower_rstrip, lower_lstrip. Qed.

Lemma lstrip_no_lead (s : string) : no_lead (lstrip s) = true.
Proof.
  induction s as [|c s IH]; simpl; [reflexivity|].
  destruct (is_space c) eqn:E; [exact IH|]. simpl. now rewrite E.
Qed.

Lemma lstrip_fixed (s : string) : no_lead s = true -> lstrip s = s.
Proof.
  destruct s as [|c s]; simpl; [reflexivity|].
  destruct (is_space c); [discriminate|reflexivity].
Qed.

Lemma rstrip_no_lead (s : string) : no_lead s = true -> no_lead (rstrip s) = true.
Proof.
  destruct s as [|c s]; simpl; [reflexivity|]. intros H.
  destruct (rstrip s); simpl.
  - destruct (is_space c) eqn:Ec; [discriminate|]. simpl. now rewrite Ec.
  - exact H.
Qed.

Lemma rstrip_idem (s : string) : rstrip (rstrip s) = rstrip s.
Proof.
  induction s as [|c s IH]; simpl; [reflexivity|].
  destruct (rstrip s) as [|c' r] eqn:E.
  - destruct (is_space c) eqn:Ec; simpl; [reflexivity|now rewrite Ec].
  - remember (String c' r) as x eqn:Ex. simpl. rewrite IH, Ex. reflexivity.
Qed.

Lemma strip_idem (s : string) : strip (strip s) = strip s.
Proof.
  unfold strip.
  rewrite (lstrip_fixed (rstrip (lstrip s))).
  - apply rstrip_idem.
  - apply rstrip_no_lead, lstrip_no_lead.
Qed.

Lemma prefix_app (p s : string) : String.prefix p (p ++ s) = true.
Proof.
  induction p as [|c p IH]; simpl; [now destruct s|].
  destruct (ascii_dec c c); [exact IH|contradiction].
Qed.

Lemma prefix_inv (p s : string) :
  String.prefix p s = true -> exists suf, s = p ++ suf.
Proof.
  revert s. induction p as [|c p IH]; intros s H.
  - exists s. reflexivity.
  - destruct s as [|d s]; simpl in H; [discriminate|].
    destruct (ascii_dec c d) as [->|]; [|discriminate].
    destruct (IH s H) as [suf ->]. exists suf. reflexivity.
Qed.

(** [sub in s] decides whether [sub] occurs in [s]. *)
Lemma contains_iff (sub s : string) :
  contains sub s = true <-> substring_of sub s.
Proof.
  split.
  - induction s as [|c s IH]; cbn [contains].
    + destruct (String.prefix sub EmptyString) eqn:E; [|intros H; discriminate H].
      intros _. destruct (prefix_inv _ _ E) as [suf Hs].
      exists EmptyString, suf. exact Hs.
    + destruct (String.prefix sub (String c s)) eqn:E.
      * intros _. destruct (prefix_inv _ _ E) as [suf Hs].
        exists EmptyString, suf. exact Hs.
      * intros H. destruct (IH H) as (pre & suf & ->).
        exists (String c pre), suf. reflexivity.
  - intros (pre & suf & ->). induction pre as [|c pre IH].
    + change (contains sub (sub ++ suf) = true).
      destruct (sub ++ suf) eqn:E; cbn [contains];
        rewrite <- E, prefix_app; reflexivity.
    + change (contains sub (String c (pre ++ sub ++ suf)) = true).
      cbn [contains]. rewrite IH. now destruct (String.prefix sub _).
Qed.

End StrFacts.

(** ** The normalisers *)

Lemma normalize_retailer_lower_strip (s : string) :
  normalize_retailer s = Str.lower (Str.strip s).
Proof. unfold normalize_retailer. symmetry. apply StrFacts.lower_strip. Qed.

(** C7. Retailer normalisation is idempotent; a string that is already
    lowercase and trimmed is returned unchanged; the empty string is
    returned as the empty string. *)
Theorem normalize_retailer_idempotent (s : string) :
  normalize_retailer (normalize_retailer s) = normalize_retailer s
  /\ (Str.lower s = s -> Str.strip s = s -> normalize_retailer s = s)
  /\ normalize_retailer EmptyString = EmptyString.
Proof.
  split; [|split].
  - unfold normalize_retailer.
    rewrite <- StrFacts.lower_strip, StrFacts.strip_idem.
    rewrite StrFacts.lower_strip, StrFacts.lower_idem. reflexivity.
  - intros Hl Hs. unfold normalize_retailer. now rewrite Hl, Hs.
  - reflexivity.
Qed.

Lemma normalize_retailer_idempotent_witness :
  (Str.lower "amazon fresh" = "amazon fresh"
   /\ Str.strip "amazon fresh" = "amazon fresh")
  /\ normalize_retailer "amazon fresh" = "amazon fresh"
  /\ normalize_retailer (normalize_retailer "  Amazon Fresh ")
     = normalize_retailer "  Amazon Fresh ".
Proof.
  pose proof (normalize_retailer_idempotent "amazon fresh") as (_ & Hfix & _).
  pose proof (normalize_retailer_idempotent "  Amazon Fresh ") as (Hidem & _).
  split; [split; reflexivity|].
  split; [apply Hfix; reflexivity|exact Hidem].
Defined.

Lemma contains_false (sub s : string) :
  ~ Str.substring_of sub s -> Str.contains sub s = false.
Proof.
  intros H. destruct (Str.contains sub s) eqn:E; [|reflexivity].
  exfalso. apply H, StrFacts.contains_iff, E.
Qed.

(** C6. The tag follows the first of "amazon", "walmart", "target" that
    occurs in the lowercased retailer, and is the default when none does;
    the match is by substring and ignores case. *)
Theorem get_affiliate_tag_by_substring (retailer : string) :
  (Str.substring_of "amazon" (Str.lower retailer) ->
   get_affiliate_tag retailer = DEFAULT_AFFILIATE_TAG_AMAZON)
  /\ (~ Str.substring_of "amazon" (Str.lower retailer) ->
      Str.substring_of "walmart" (Str.lower retailer) ->
      get_affiliate_tag retailer = DEFAULT_AFFILIATE_TAG_WALMART)
  /\ (~ Str.substring_of "amazon" (Str.lower retailer) ->
      ~ Str.substring_of "walmart" (Str.lower retailer) ->
      Str.substring_of "target" (Str.lower retailer) ->
      get_affiliate_tag retailer = DEFAULT_AFFILIATE_TAG_TARGET)
  /\ (~ Str.substring_of "amazon" (Str.lower retailer) ->
      ~ Str.substring_of "walmart" (Str.lower retailer) ->
      ~ Str.substring_of "target" (Str.lower retailer) ->
      get_affiliate_tag retailer = DEFAULT_AFFILIATE_TAG_OTHER)
  /\ get_affiliate_tag (Str.lower retailer) = get_affiliate_tag retailer
  /\ get_affiliate_tag "Amazon" = DEFAULT_AFFILIATE_TAG_AMAZON
  /\ get_affiliate_tag "amazon fresh" = DEFAULT_AFFILIATE_TAG_AMAZON
  /\ get_affiliate_tag "AMAZON.COM" = DEFAULT_AFFILIATE_TAG_AMAZON
  /\ get_affiliate_tag "walmart" = DEFAULT_AFFILIATE_TAG_WALMART
  /\ get_affiliate_tag "Target" = DEFAULT_AFFILIATE_TAG_TARGET.
Proof.
  unfold get_affiliate_tag at 1 2 3 4.
  repeat split; try reflexivity.
  - intros H. apply StrFacts.contains_iff in H. now rewrite H.
  - intros Ha Hw. apply contains_false in Ha.
    apply StrFacts.contains_iff in Hw. now rewrite Ha, Hw.
  - intros Ha Hw Ht. apply contains_false in Ha, Hw.
    apply StrFacts.contains_iff in Ht. now rewrite Ha, Hw, Ht.
  - intros Ha Hw Ht. apply contains_false in Ha, Hw, Ht.
    now rewrite Ha, Hw, Ht.
  - unfold get_affiliate_tag. now rewrite StrFacts.lower_idem.
Qed.

Lemma get_affiliate_tag_by_substring_witness :
  Str.substring_of "amazon" (Str.lower "Shop AMAZON.COM")
  /\ get_affiliate_tag "Shop AMAZON.COM" = DEFAULT_AFFILIATE_TAG_AMAZON.
Proof.
  assert (H : Str.substring_of "amazon" (Str.lower "Shop AMAZON.COM")).
  { exists "shop ", ".com". reflexivity. }
  split; [exact H|].
  exact (proj1 (get_affiliate_tag_by_substring "Shop AMAZON.COM") H).
Defined.

(** The Amazon tag is returned for no other retailer. *)
Lemma get_affiliate_tag_amazon_only (retailer : string) :
  get_affiliate_tag retailer = DEFAULT_AFFILIATE_TAG_AMAZON ->
  Str.substring_of "amazon" (Str.lower retailer).
Proof.
  unfold get_affiliate_tag. intros H. apply StrFacts.contains_iff.
  destruct (Str.contains "amazon" _); [reflexivity|].
  destruct (Str.contains "walmart" _); [discriminate|].
  destruct (Str.contains "target" _); discriminate.
Qed.

Lemma normalize_badge_missing :
  normalize_badge None = None /\ normalize_badge (Some EmptyString) = None.
Proof. split; reflexivity. Qed.

(** A phrase that is not empty is lowercased and trimmed, looked up, and on
    a miss has its spaces and hyphens turned into underscores. *)
Lemma normalize_badge_phrase (b : string) :
  b <> EmptyString ->
  normalize_badge (Some b) =
  Some (match table_get (Str.strip (Str.lower b)) BADGE_MAPPING with
        | Some tag => tag
        | None => Str.replace "-" "_" (Str.replace " " "_" (Str.strip (Str.lower b)))
        end).
Proof. destruct b; [congruence|reflexivity]. Qed.

(** Every entry of the table but the capitalised one maps to its tag. *)
Lemma normalize_badge_table (phrase tag : string) :
  In (phrase, tag) BADGE_MAPPING ->
  phrase <> "Amazon no.1 best-seller" ->
  normalize_badge (Some phrase) = Some tag.
Proof.
  unfold BADGE_MAPPING. simpl In. intros H Hne.
  repeat (destruct H as [H|H];
          [injection H as <- <-; first [reflexivity | congruence]|]).
  contradiction.
Qed.

(** C4. The table has the entry "Amazon no.1 best-seller" -> "best_seller",
    and the normaliser, which looks up the lowercased phrase, never reaches
    it: the phrase falls through to the mechanical conversion. *)
Theorem normalize_badge_capitalised_entry :
  In ("Amazon no.1 best-seller", "best_seller") BADGE_MAPPING
  /\ normalize_badge (Some "Amazon no.1 best-seller")
     = Some "amazon_no.1_best_seller"
  /\ normalize_badge (Some "Budget Best-Seller") = Some "best_seller"
  /\ normalize_badge (Some "Extra Soft") = Some "extra_soft".
Proof.
  split; [|repeat split; reflexivity].
  unfold BADGE_MAPPING. simpl. tauto.
Qed.

(** ** Dicts keyed by strings *)

Lemma key_eqb_str_inv (k : key) (s : string) :
  key_eqb k (KStr s) = true -> k = KStr s.
Proof.
  destruct k; simpl; try discriminate.
  intros H. apply String.eqb_eq in H. now subst.
Qed.

Lemma key_eqb_str_refl (s : string) : key_eqb (KStr s) (KStr s) = true.
Proof. apply String.eqb_refl. Qed.

Lemma dict_get_set (s t : string) (v : value) (d : dict) :
  dict_get (KStr s) (dict_set (KStr t) v d) =
  if String.eqb t s then Some v else dict_get (KStr s) d.
Proof.
  induction d as [|[k x] d IH]; simpl.
  - reflexivity.
  - destruct (key_eqb k (KStr t)) eqn:Ekt; simpl.
    + apply key_eqb_str_inv in Ekt. subst k. simpl.
      destruct (String.eqb t s); reflexivity.
    + rewrite IH. destruct (key_eqb k (KStr s)) eqn:Eks; [|reflexivity].
      apply key_eqb_str_inv in Eks. subst k. simpl in Ekt.
      rewrite String.eqb_sym, Ekt. reflexivity.
Qed.

Lemma dict_mem_In (s : string) (d : dict) :
  dict_mem (KStr s) d = true <-> In (KStr s) (dict_keys d).
Proof.
  unfold dict_mem. induction d as [|[k x] d IH]; simpl.
  - split; [discriminate|contradiction].
  - destruct (key_eqb k (KStr s)) eqn:E.
    + apply key_eqb_str_inv in E. tauto.
    + rewrite IH. split; [tauto|]. intros [-> | H]; [|exact H].
      rewrite key_eqb_str_refl in E. discriminate.
Qed.

Lemma dict_keys_set (t : string) (v : value) (d : dict) :
  dict_keys (dict_set (KStr t) v d) =
  if dict_mem (KStr t) d then dict_keys d else (dict_keys d ++ [KStr t])%list.
Proof.
  unfold dict_mem. induction d as [|[k x] d IH]; simpl; [reflexivity|].
  destruct (key_eqb k (KStr t)); simpl; [reflexivity|].
  rewrite IH. now destruct (dict_get (KStr t) d).
Qed.

Lemma dict_set_new (t : string) (v : value) (d : dict) :
  dict_mem (KStr t) d = false -> dict_set (KStr t) v d = (d ++ [(KStr t, v)])%list.
Proof.
  unfold dict_mem. induction d as [|[k x] d IH]; simpl; [reflexivity|].
  destruct (key_eqb k (KStr t)); [discriminate|].
  intros H. now rewrite IH.
Qed.

(** ** The error monad *)

Lemma bind_Ok {A B : Type} (c : result A) (k : A -> result B) (b : B) :
  bind c k = Ok b -> exists a, c = Ok a /\ k a = Ok b.
Proof. destruct c as [a|e]; simpl; [eauto|discriminate]. Qed.

Lemma bind_Raise {A B : Type} (c : result A) (k : A -> result B) (e : exn) :
  c = Raise e -> bind c k = Raise e.
Proof. intros ->. reflexivity. Qed.

(** ** Link conversion *)

Lemma present_not_none_dict (d : dict) (k : string) :
  present_not_none (VDict d) k = Ok (field_not_none k (VDict d)).
Proof.
  unfold present_not_none, field_not_none, field, py_in, py_getitem, dict_mem.
  simpl. destruct (dict_get (KStr k) d) as [[]|]; reflexivity.
Qed.

(** A well-typed link with a [url] converts, to the LinkDoc [link_doc]. *)
Lemma convert_link_source (d : dict) (idx : nat) (url : value) :
  source_link (VDict d) = true ->
  dict_get (KStr "url") d = Some url ->
  convert_link (VDict d) idx = Ok (VDict (link_doc (VDict d) idx url)).
Proof.
  unfold source_link, field_is. intros H Hurl.
  apply andb_true_iff in H as [Hr Hb].
  unfold convert_link, link_doc, retailer_of.
  rewrite !present_not_none_dict.
  unfold py_get, py_getitem, field_not_none, field in *.
  rewrite Hurl.
  assert (Hret : call_normalize_retailer
                   match dict_get (KStr "retailer") d with
                   | Some v => v
                   | None => VStr EmptyString
                   end
                 = Ok (normalize_retailer
                         match dict_get (KStr "retailer") d with
                         | Some (VStr s) => s
                         | _ => EmptyString
                         end)).
  { destruct (dict_get (KStr "retailer") d) as [[]|]; try discriminate; reflexivity. }
  cbn [bind]. rewrite Hret. cbn [bind].
  destruct (dict_get (KStr "badge") d) as [[]|]; try discriminate;
    destruct (match dict_get (KStr "averageRating") d with
              | Some VNone => None
              | o => o
              end);
    destruct (match dict_get (KStr "reviewCount") d with
              | Some VNone => None
              | o => o
              end); reflexivity.
Qed.

Lemma link_doc_priority (link : value) (idx : nat) (url : value) :
  dict_get (KStr "priority") (link_doc link idx url)
  = Some (VInt (Z.of_nat idx + 1)).
Proof. reflexivity. Qed.

Lemma link_doc_displayName (link : value) (idx : nat) (url : value) :
  dict_get (KStr "displayName") (link_doc link idx url)
  = Some (match field "displayName" link with Some v => v | None => VNone end).
Proof. reflexivity. Qed.

Lemma link_doc_averageRating (link : value) (idx : nat) (url : value) :
  dict_get (KStr "averageRating") (link_doc link idx url)
  = field_not_none "averageRating" link.
Proof.
  unfold link_doc.
  destruct (field_not_none "averageRating" link),
           (field_not_none "reviewCount" link),
           (field_not_none "badge" link); reflexivity.
Qed.

Lemma link_doc_reviewCount (link : value) (idx : nat) (url : value) :
  dict_get (KStr "reviewCount") (link_doc link idx url)
  = field_not_none "reviewCount" link.
Proof.
  unfold link_doc.
  destruct (field_not_none "averageRating" link),
           (field_not_none "reviewCount" link),
           (field_not_none "badge" link); reflexivity.
Qed.

Lemma link_doc_badge (link : value) (idx : nat) (url : value) :
  dict_get (KStr "badge") (link_doc link idx url)
  = option_map badge_tag (field_not_none "badge" link).
Proof.
  unfold link_doc.
  destruct (field_not_none "averageRating" link),
           (field_not_none "reviewCount" link),
           (field_not_none "badge" link); reflexivity.
Qed.

Lemma field_not_none_spec (k : string) (x v : value) :
  field_not_none k x = Some v <-> field k x = Some v /\ v <> VNone.
Proof.
  unfold field_not_none. destruct (field k x) as [[]|]; split;
    try (intros [H Hn]); try (intros H); try discriminate;
    try (injection H as <-); try (split; [reflexivity|discriminate]);
    try reflexivity.
  congruence.
Qed.

(** The part of the optional-field rule that holds for every well-typed
    link with a [url]: each of the three keys is in the LinkDoc exactly when
    the source has it with a value other than [None]; the rating and the
    review count are carried unchanged, so are never [None]; [displayName]
    is always there. *)
Lemma convert_link_optional_fields (d : dict) (idx : nat) :
  source_link (VDict d) = true ->
  has_field "url" (VDict d) = true ->
  exists v1_link,
    convert_link (VDict d) idx = Ok (VDict v1_link)
    /\ (forall k, k = "averageRating" \/ k = "reviewCount" \/ k = "badge" ->
        (dict_mem (KStr k) v1_link = true <->
         exists v, dict_get (KStr k) d = Some v /\ v <> VNone))
    /\ (forall k, k = "averageRating" \/ k = "reviewCount" ->
        dict_get (KStr k) v1_link <> Some VNone)
    /\ dict_mem (KStr "displayName") v1_link = true
    /\ (field_not_none "displayName" (VDict d) = None ->
        dict_get (KStr "displayName") v1_link = Some VNone).
Proof.
  intros Hty Hurl. unfold has_field, dict_mem in Hurl.
  destruct (dict_get (KStr "url") d) as [url|] eqn:Eurl; [|discriminate].
  exists (link_doc (VDict d) idx url).
  split; [exact (convert_link_source d idx url Hty Eurl)|].
  split; [|split; [|split]].
  - intros k Hk. unfold dict_mem.
    assert (Hget : exists o, dict_get (KStr k) (link_doc (VDict d) idx url) = o
                   /\ ((exists v, o = Some v) <->
                       exists v, field_not_none k (VDict d) = Some v)).
    { destruct Hk as [-> | [-> | ->]].
      - rewrite link_doc_averageRating. eexists. split; [reflexivity|tauto].
      - rewrite link_doc_reviewCount. eexists. split; [reflexivity|tauto].
      - rewrite link_doc_badge. eexists. split; [reflexivity|].
        destruct (field_not_none "badge" (VDict d)); simpl.
        + split; intros _; eexists; reflexivity.
        + split; intros [v Hv]; discriminate. }
    destruct Hget as (o & -> & Ho).
    split.
    + intros H. destruct o as [v|]; [|discriminate].
      destruct (proj1 Ho (ex_intro _ v eq_refl)) as [v' Hv'].
      exists v'. apply field_not_none_spec in Hv'. exact Hv'.
    + intros (v & Hv & Hn).
      assert (Hf : field_not_none k (VDict d) = Some v)
        by (apply field_not_none_spec; split; assumption).
      destruct (proj2 Ho (ex_intro _ v Hf)) as [v' ->]. reflexivity.
  - intros k [-> | ->].
    + rewrite link_doc_averageRating. intros H.
      apply field_not_none_spec in H. now destruct H.
    + rewrite link_doc_reviewCount. intros H.
      apply field_not_none_spec in H. now destruct H.
  - reflexivity.
  - intros H. rewrite link_doc_displayName.
    unfold field_not_none in H.
    destruct (field "displayName" (VDict d)) as [[]|]; try discriminate;
      reflexivity.
Qed.

(** C5. A well-typed link with a [url] whose [badge] is the empty string
    gets a LinkDoc with the key [badge] and the value [None]: the guard on
    the source value lets the empty string through and the normaliser
    answers [None] for it. *)
Theorem convert_link_empty_badge :
  source_link (VDict [ (KStr "url", VStr "http://x");
                       (KStr "badge", VStr EmptyString) ]) = true
  /\ convert_link (VDict [ (KStr "url", VStr "http://x");
                           (KStr "badge", VStr EmptyString) ]) 0
     = Ok (VDict [ (KStr "retailer", VStr EmptyString);
                   (KStr "url", VStr "http://x");
                   (KStr "displayName", VNone);
                   (KStr "affiliateTag", VStr "dormready");
                   (KStr "priority", VInt 1);
                   (KStr "badge", VNone) ]).
Proof. split; reflexivity. Qed.

(** ** Item conversion *)

Lemma convert_links_pointwise (links : list value) :
  forall idx v1_links,
    convert_links links idx = Ok v1_links ->
    List.length v1_links = List.length links
    /\ forall i link,
        nth_error links i = Some link ->
        exists v1_link, nth_error v1_links i = Some v1_link
                        /\ convert_link link (idx + i) = Ok v1_link.
Proof.
  induction links as [|l links IH]; intros idx out H.
  - injection H as <-. split; [reflexivity|]. intros [|i] ? Hn; discriminate.
  - cbn [convert_links] in H.
    apply bind_Ok in H as (o & Ho & H). apply bind_Ok in H as (rest & Hrest & H).
    injection H as <-. destruct (IH _ _ Hrest) as [Hlen Hnth].
    split; [simpl; now rewrite Hlen|].
    intros [|i] link Hn; simpl in Hn.
    + injection Hn as <-. exists o. rewrite Nat.add_0_r. split; [reflexivity|exact Ho].
    + destruct (Hnth i link Hn) as (o' & Ho' & Hc). exists o'.
      split; [exact Ho'|]. now rewrite Nat.add_succ_r.
Qed.

Lemma convert_links_source (links : list value) (idx : nat) :
  forallb source_link links = true ->
  forallb (has_field "url") links = true ->
  exists v1_links,
    convert_links links idx = Ok v1_links
    /\ List.length v1_links = List.length links
    /\ map priority_of v1_links
       = map (fun i => Some (VInt (Z.of_nat i))) (seq (S idx) (List.length links)).
Proof.
  revert idx. induction links as [|link links IH]; intros idx Hty Hurl.
  - exists []. repeat split.
  - simpl in Hty, Hurl.
    apply andb_true_iff in Hty as [Hty Htys].
    apply andb_true_iff in Hurl as [Hurl Hurls].
    destruct link as [| | | | | |d]; try discriminate.
    unfold has_field, dict_mem in Hurl.
    destruct (dict_get (KStr "url") d) as [url|] eqn:Eurl; [|discriminate].
    destruct (IH (S idx) Htys Hurls) as (rest & Hrest & Hlen & Hprio).
    exists (VDict (link_doc (VDict d) idx url) :: rest).
    cbn [convert_links]. rewrite (convert_link_source d idx url Hty Eurl).
    cbn [bind]. rewrite Hrest. cbn [bind].
    split; [reflexivity|]. split; [simpl; now rewrite Hlen|].
    cbn [map List.length seq]. rewrite Hprio.
    unfold priority_of at 1, field. rewrite link_doc_priority.
    do 3 f_equal. lia.
Qed.

Lemma source_item_links (d : dict) :
  source_item (VDict d) = true ->
  py_get (VDict d) "affiliateLinks" (VList []) = Ok (VList (item_links (VDict d)))
  /\ forallb source_link (item_links (VDict d)) = true.
Proof.
  unfold source_item, field_is, py_get, item_links. intros H.
  apply andb_true_iff in H as [_ H].
  destruct (dict_get (KStr "affiliateLinks") d) as [[]|]; try discriminate;
    split; try reflexivity; exact H.
Qed.

(** A well-typed item with its required fields converts; its id is a
    string and its links are numbered from 1. *)
Lemma convert_item_source (item : value) :
  source_item item = true ->
  item_complete item = true ->
  exists item_id v1_links,
    field "id" item = Some (VStr item_id)
    /\ convert_item item
       = Ok (VStr item_id, VDict [ (KStr "itemVersion", VInt 1);
                                   (KStr "links", VList v1_links) ])
    /\ List.length v1_links = List.length (item_links item)
    /\ map priority_of v1_links
       = map (fun i => Some (VInt (Z.of_nat i)))
             (seq 1 (List.length (item_links item))).
Proof.
  intros Hty Hc. destruct item as [| | | | | |d]; try discriminate.
  unfold item_complete in Hc. apply andb_true_iff in Hc as [Hid Hurls].
  destruct (source_item_links d Hty) as [Hget Htys].
  destruct (convert_links_source _ 0 Htys Hurls) as (out & Hout & Hlen & Hprio).
  unfold has_field, dict_mem in Hid.
  unfold source_item, field_is in Hty. apply andb_true_iff in Hty as [Hstr _].
  destruct (dict_get (KStr "id") d) as [[| | | |item_id| |]|] eqn:Eid;
    try discriminate.
  exists item_id, out. split; [exact Eid|].
  split; [|split; assumption].
  unfold convert_item. unfold py_getitem at 1. rewrite Eid. cbn [bind].
  rewrite Hget. cbn [bind py_iter]. rewrite Hout. reflexivity.
Qed.

(** The links of a well-typed item, one by one: the LinkDoc at a
    position is the conversion of the source link at that position. *)
Lemma convert_links_source_nth (links v1_links : list value) (idx : nat) :
  forallb source_link links = true ->
  forallb (has_field "url") links = true ->
  convert_links links idx = Ok v1_links ->
  forall i link,
    nth_error links i = Some link ->
    exists v1_link,
      nth_error v1_links i = Some v1_link
      /\ convert_link link (idx + i) = Ok v1_link
      /\ priority_of v1_link = Some (VInt (Z.of_nat (idx + i) + 1))
      /\ field "url" v1_link = field "url" link.
Proof.
  intros Hty Hurl Hrun i link Hi.
  destruct (proj2 (convert_links_pointwise _ _ _ Hrun) i link Hi)
    as (v1_link & Hnth & Hconv).
  exists v1_link. split; [exact Hnth|]. split; [exact Hconv|].
  pose proof (nth_error_In _ _ Hi) as Hin.
  rewrite forallb_forall in Hty, Hurl.
  specialize (Hty link Hin). specialize (Hurl link Hin).
  destruct link as [| | | | | |d]; try discriminate.
  unfold has_field, dict_mem in Hurl.
  destruct (dict_get (KStr "url") d) as [url|] eqn:Eurl; [|discriminate].
  rewrite (convert_link_source d (idx + i) url Hty Eurl) in Hconv.
  injection Hconv as <-. unfold priority_of, field.
  rewrite link_doc_priority, Eurl. split; reflexivity.
Qed.

(** C3. The links of a converted item carry the priorities 1, 2, ..., N in
    the order of the source array: the LinkDoc at position [i] is the
    conversion of the source link at position [i], with its [url], and has
    priority [i + 1]. The priorities are the same for every item with as
    many links, whatever ratings, review counts and badges the links hold. *)
Theorem convert_item_priorities (item : value) :
  source_item item = true ->
  item_complete item = true ->
  exists item_id v1_links,
    field "id" item = Some item_id
    /\ convert_item item
       = Ok (item_id, VDict [ (KStr "itemVersion", VInt 1);
                              (KStr "links", VList v1_links) ])
    /\ List.length v1_links = List.length (item_links item)
    /\ map priority_of v1_links
       = map (fun i => Some (VInt (Z.of_nat i)))
             (seq 1 (List.length (item_links item)))
    /\ (forall i link,
           nth_error (item_links item) i = Some link ->
           exists v1_link,
             nth_error v1_links i = Some v1_link
             /\ convert_link link i = Ok v1_link
             /\ priority_of v1_link = Some (VInt (Z.of_nat i + 1))
             /\ field "url" v1_link = field "url" link)
    /\ (forall other other_id other_links,
           source_item other = true ->
           item_complete other = true ->
           List.length (item_links other) = List.length (item_links item) ->
           convert_item other
           = Ok (other_id, VDict [ (KStr "itemVersion", VInt 1);
                                   (KStr "links", VList other_links) ]) ->
           map priority_of other_links = map priority_of v1_links).
Proof.
  intros Hty Hc.
  destruct (convert_item_source item Hty Hc)
    as (item_id & out & Hid & Hconv & Hlen & Hprio).
  exists (VStr item_id), out.
  split; [exact Hid|]. split; [exact Hconv|]. split; [exact Hlen|].
  split; [exact Hprio|]. split.
  - destruct item as [| | | | | |d]; try discriminate.
    destruct (source_item_links d Hty) as [Hget Htys].
    unfold item_complete in Hc. apply andb_true_iff in Hc as [_ Hurls].
    assert (Hrun : convert_links (item_links (VDict d)) 0 = Ok out).
    { unfold convert_item in Hconv. rewrite Hget in Hconv.
      unfold py_getitem in Hconv.
      destruct (dict_get (KStr "id") d); [|discriminate].
      cbn [bind py_iter] in Hconv.
      apply bind_Ok in Hconv as (out' & Hout' & H). injection H as _ <-.
      exact Hout'. }
    intros i link Hi.
    destruct (convert_links_source_nth _ _ 0 Htys Hurls Hrun i link Hi)
      as (v1_link & H). exists v1_link. exact H.
  - intros other other_id other_links Hty' Hc' Hsame Hconv'.
    destruct (convert_item_source other Hty' Hc')
      as (oid & oout & _ & Hoconv & _ & Hoprio).
    rewrite Hoconv in Hconv'. injection Hconv' as _ <-.
    rewrite Hoprio, Hprio, Hsame. reflexivity.
Qed.

Lemma convert_item_priorities_witness :
  (source_item three_links = true /\ item_complete three_links = true)
  /\ exists item_id v1_links,
      field "id" three_links = Some item_id
      /\ convert_item three_links
         = Ok (item_id, VDict [ (KStr "itemVersion", VInt 1);
                                (KStr "links", VList v1_links) ])
      /\ List.length v1_links = 3
      /\ map priority_of v1_links = [Some (VInt 1); Some (VInt 2); Some (VInt 3)]
      /\ (forall i link,
             nth_error (item_links three_links) i = Some link ->
             exists v1_link,
               nth_error v1_links i = Some v1_link
               /\ convert_link link i = Ok v1_link
               /\ priority_of v1_link = Some (VInt (Z.of_nat i + 1))
               /\ field "url" v1_link = field "url" link)
      /\ (forall other other_id other_links,
             source_item other = true ->
             item_complete other = true ->
             List.length (item_links other) = 3 ->
             convert_item other
             = Ok (other_id, VDict [ (KStr "itemVersion", VInt 1);
                                     (KStr "links", VList other_links) ]) ->
             map priority_of other_links = map priority_of v1_links).
Proof.
  split; [split; reflexivity|].
  exact (convert_item_priorities three_links eq_refl eq_refl).
Defined.

Example convert_item_three_links :
  convert_item three_links
  = Ok (VStr "desk-lamp",
        VDict [ (KStr "itemVersion", VInt 1);
                (KStr "links",
                 VList [ VDict [ (KStr "retailer", VStr "target");
                                 (KStr "url", VStr "http://t");
                                 (KStr "displayName", VNone);
                                 (KStr "affiliateTag", VStr "dormready");
                                 (KStr "priority", VInt 1);
                                 (KStr "averageRating", VFloat 3.5) ];
                         VDict [ (KStr "retailer", VStr "amazon");
                                 (KStr "url", VStr "http://a");
                                 (KStr "displayName", VNone);
                                 (KStr "affiliateTag", VStr "dormready-20");
                                 (KStr "priority", VInt 2);
                                 (KStr "averageRating", VFloat 4.5);
                                 (KStr "badge", VStr "top_rated") ];
                         VDict [ (KStr "retailer", VStr EmptyString);
                                 (KStr "url", VStr "http://w");
                                 (KStr "displayName", VNone);
                                 (KStr "affiliateTag", VStr "dormready");
                                 (KStr "priority", VInt 3);
                                 (KStr "reviewCount", VInt 7) ] ]) ]).
Proof. reflexivity. Qed.

(** ** Absent optional fields *)

Section Defaults.

Variable TODAY : string.

(** C10. A link with a [url] and no [retailer] converts, with the empty
    retailer and the default tag; an item with an [id] and no
    [affiliateLinks] converts to no links; a category with an [id] and no
    [items] converts to the empty mapping. *)
Theorem absent_fields_default :
  (forall d idx,
      source_link (VDict d) = true ->
      has_field "url" (VDict d) = true ->
      has_field "retailer" (VDict d) = false ->
      exists v1_link,
        convert_link (VDict d) idx = Ok (VDict v1_link)
        /\ dict_get (KStr "retailer") v1_link = Some (VStr EmptyString)
        /\ dict_get (KStr "affiliateTag") v1_link
           = Some (VStr DEFAULT_AFFILIATE_TAG_OTHER))
  /\ (forall d item_id,
         dict_get (KStr "id") d = Some item_id ->
         has_field "affiliateLinks" (VDict d) = false ->
         convert_item (VDict d)
         = Ok (item_id, VDict [ (KStr "itemVersion", VInt 1);
                                (KStr "links", VList []) ]))
  /\ (forall d category_id,
         dict_get (KStr "id") d = Some category_id ->
         has_field "items" (VDict d) = false ->
         convert_category TODAY (VDict d)
         = Ok (VDict [ (KStr "categoryId", category_id);
                       (KStr "version", VInt VERSION);
                       (KStr "lastUpdated", VStr TODAY);
                       (KStr "items", VDict []) ])).
Proof.
  split; [|split].
  - intros d idx Hty Hurl Hret. unfold has_field, dict_mem in Hurl, Hret.
    destruct (dict_get (KStr "url") d) as [url|] eqn:Eurl; [|discriminate].
    destruct (dict_get (KStr "retailer") d) eqn:Eret; [discriminate|].
    exists (link_doc (VDict d) idx url).
    split; [exact (convert_link_source d idx url Hty Eurl)|].
    unfold link_doc, retailer_of, field. rewrite Eret. split; reflexivity.
  - intros d item_id Hid Hlinks. unfold has_field, dict_mem in Hlinks.
    destruct (dict_get (KStr "affiliateLinks") d) eqn:E; [discriminate|].
    unfold convert_item, py_getitem, py_get. rewrite Hid, E. reflexivity.
  - intros d category_id Hid Hitems. unfold has_field, dict_mem in Hitems.
    destruct (dict_get (KStr "items") d) eqn:E; [discriminate|].
    unfold convert_category, py_getitem, py_get. rewrite Hid, E. reflexivity.
Qed.

End Defaults.

Lemma absent_fields_default_witness :
  (exists v1_link,
      convert_link link_without_retailer 4 = Ok (VDict v1_link)
      /\ dict_get (KStr "retailer") v1_link = Some (VStr EmptyString)
      /\ dict_get (KStr "affiliateTag") v1_link = Some (VStr "dormready"))
  /\ convert_item item_without_links
     = Ok (VStr "desk-lamp", VDict [ (KStr "itemVersion", VInt 1);
                                     (KStr "links", VList []) ])
  /\ convert_category "2025-12-01" category_without_items
     = Ok (VDict [ (KStr "categoryId", VStr "lighting");
                   (KStr "version", VInt 3);
                   (KStr "lastUpdated", VStr "2025-12-01");
                   (KStr "items", VDict []) ]).
Proof.
  destruct (absent_fields_default "2025-12-01") as (Hlink & Hitem & Hcat).
  unfold link_without_retailer, item_without_links, category_without_items.
  split; [|split].
  - apply Hlink; reflexivity.
  - apply Hitem; reflexivity.
  - apply Hcat; reflexivity.
Defined.

(** ** Category conversion *)

(** The loop over well-typed items: it succeeds; a key of the result is a
    key it started with or the id of an item; an id no item has keeps its
    entry; the last item of an id gives that id's entry. *)
Lemma convert_items_source (items : list value) :
  forallb source_item items = true ->
  forallb item_complete items = true ->
  forall acc, exists items_dict,
    convert_items items acc = Ok items_dict
    /\ (NoDup (dict_keys acc) -> NoDup (dict_keys items_dict))
    /\ (forall k, In k (dict_keys items_dict) <->
                  In k (dict_keys acc)
                  \/ exists item, In item items /\ field "id" item = Some (of_key k))
    /\ (forall s, (forall item, In item items -> field "id" item <> Some (VStr s)) ->
                  dict_get (KStr s) items_dict = dict_get (KStr s) acc)
    /\ (forall before item after s,
           items = (before ++ item :: after)%list ->
           field "id" item = Some (VStr s) ->
           (forall later, In later after -> field "id" later <> Some (VStr s)) ->
           exists item_config,
             convert_item item = Ok (VStr s, item_config)
             /\ dict_get (KStr s) items_dict = Some item_config).
Proof.
  induction items as [|item items IH]; intros Hty Hc acc.
  - exists acc. split; [reflexivity|]. split; [tauto|]. split; [|split].
    + intros k. split; [tauto|]. intros [H|(item & [] & _)]. exact H.
    + reflexivity.
    + intros [|] ? ? ? H; discriminate H.
  - simpl in Hty, Hc.
    apply andb_true_iff in Hty as [Hty Htys].
    apply andb_true_iff in Hc as [Hc Hcs].
    destruct (convert_item_source item Hty Hc) as (id & out & Hid & Hconv & _).
    destruct (IH Htys Hcs (dict_set (KStr id) (VDict [ (KStr "itemVersion", VInt 1);
                                                       (KStr "links", VList out) ]) acc))
      as (items_dict & Hrun & Hnodup & Hkeys & Hkeep & Hlast).
    exists items_dict.
    split; [cbn [convert_items]; rewrite Hconv; exact Hrun|].
    split; [|split; [|split]].
    + intros Hacc. apply Hnodup. rewrite dict_keys_set.
      destruct (dict_mem (KStr id) acc) eqn:Emem; [exact Hacc|].
      apply NoDup_app; [exact Hacc|repeat constructor; intros []|].
      intros k Hk [<-|[]]. apply dict_mem_In in Hk. congruence.
    + intros k. rewrite Hkeys, dict_keys_set. split.
      * intros [Hk|(it & Hin & Hit)].
        -- destruct (dict_mem (KStr id) acc); [left; exact Hk|].
           apply in_app_or in Hk as [Hk|[<-|[]]]; [left; exact Hk|].
           right. exists item. split; [left; reflexivity|exact Hid].
        -- right. exists it. split; [right; exact Hin|exact Hit].
      * intros [Hk|(it & [<-|Hin] & Hit)].
        -- left. destruct (dict_mem (KStr id) acc); [exact Hk|].
           apply in_or_app. left. exact Hk.
        -- left. rewrite Hid in Hit. destruct k; try discriminate.
           injection Hit as ->.
           destruct (dict_mem (KStr s) acc) eqn:Emem.
           ++ apply dict_mem_In, Emem.
           ++ apply in_or_app. right. left. reflexivity.
        -- right. exists it. split; assumption.
    + intros s Hs. rewrite Hkeep by (intros it Hin; apply Hs; right; exact Hin).
      rewrite dict_get_set. destruct (String.eqb id s) eqn:E; [|reflexivity].
      apply String.eqb_eq in E. subst s. exfalso.
      apply (Hs item); [left; reflexivity|exact Hid].
    + intros before it after s Hsplit Hit Hlater.
      destruct before as [|b before]; simpl in Hsplit;
        injection Hsplit as <- ->.
      * rewrite Hid in Hit. injection Hit as <-.
        eexists. split; [exact Hconv|].
        rewrite (Hkeep id Hlater), dict_get_set, String.eqb_refl. reflexivity.
      * apply (Hlast before it after s eq_refl Hit Hlater).
Qed.

Lemma source_category_items (d : dict) :
  source_category (VDict d) = true ->
  py_get (VDict d) "items" (VList []) = Ok (VList (category_items (VDict d)))
  /\ forallb source_item (category_items (VDict d)) = true.
Proof.
  unfold source_category, field_is, py_get, category_items. intros H.
  destruct (dict_get (KStr "items") d) as [[]|]; try discriminate;
    split; try reflexivity; exact H.
Qed.

Section Category.

Variable TODAY : string.

(** C2. A category with its required fields converts; the keys of its
    [items] mapping are the ids of the source items, each once; the entry
    of an id is the ItemDoc of the last source item with that id. *)
Theorem convert_category_items (category : value) :
  source_category category = true ->
  category_complete category = true ->
  exists category_id items_dict,
    convert_category TODAY category
    = Ok (VDict [ (KStr "categoryId", category_id);
                  (KStr "version", VInt VERSION);
                  (KStr "lastUpdated", VStr TODAY);
                  (KStr "items", VDict items_dict) ])
    /\ field "id" category = Some category_id
    /\ NoDup (dict_keys items_dict)
    /\ (forall k, In k (dict_keys items_dict) <->
                  exists item, In item (category_items category)
                               /\ field "id" item = Some (of_key k))
    /\ (forall before item after item_id,
           category_items category = (before ++ item :: after)%list ->
           field "id" item = Some item_id ->
           (forall later, In later after -> field "id" later <> Some item_id) ->
           exists k item_config,
             to_key item_id = Ok k
             /\ convert_item item = Ok (item_id, item_config)
             /\ dict_get k items_dict = Some item_config).
Proof.
  intros Hty Hc. destruct category as [| | | | | |d]; try discriminate.
  unfold category_complete in Hc. apply andb_true_iff in Hc as [Hid Hcs].
  destruct (source_category_items d Hty) as [Hget Htys].
  destruct (convert_items_source _ Htys Hcs [])
    as (items_dict & Hrun & Hnodup & Hkeys & _ & Hlast).
  unfold has_field, dict_mem in Hid.
  destruct (dict_get (KStr "id") d) as [category_id|] eqn:Eid; [|discriminate].
  exists category_id, items_dict.
  split; [|split; [exact Eid|split; [|split]]].
  - unfold convert_category. unfold py_getitem at 1. rewrite Eid. cbn [bind].
    rewrite Hget. cbn [bind py_iter]. rewrite Hrun. reflexivity.
  - apply Hnodup. constructor.
  - intros k. rewrite Hkeys. simpl. tauto.
  - intros before item after item_id Hsplit Hitem Hlater.
    assert (Hin : In item (category_items (VDict d)))
      by (rewrite Hsplit; apply in_or_app; right; left; reflexivity).
    assert (Hs : exists s, item_id = VStr s).
    { rewrite forallb_forall in Htys. specialize (Htys item Hin).
      destruct item as [| | | | | |di]; try discriminate.
      unfold source_item, field_is in Htys. simpl in Hitem.
      rewrite Hitem in Htys. destruct item_id; try discriminate.
      eexists. reflexivity. }
    destruct Hs as [s ->].
    destruct (Hlast before item after s Hsplit Hitem Hlater) as (cfg & Hconv & Hget').
    exists (KStr s), cfg. repeat split; assumption.
Qed.

End Category.

(** ** The shape of a converted category *)

Lemma convert_item_shape (item item_id item_config : value) :
  convert_item item = Ok (item_id, item_config) -> is_item_doc item_config.
Proof.
  unfold convert_item. intros H.
  apply bind_Ok in H as (? & _ & H). apply bind_Ok in H as (? & _ & H).
  apply bind_Ok in H as (? & _ & H). apply bind_Ok in H as (links & _ & H).
  injection H as _ <-. exists links. reflexivity.
Qed.

Lemma dict_set_values (P : value -> Prop) (k : key) (v : value) (d : dict) :
  Forall P (map snd d) -> P v -> Forall P (map snd (dict_set k v d)).
Proof.
  intros Hd Hv. induction d as [|[k' x] d IH]; simpl.
  - repeat constructor. exact Hv.
  - inversion Hd as [|? ? Hx Hrest]; subst.
    destruct (key_eqb k' k); simpl; constructor; auto.
Qed.

Lemma convert_items_shape (items : list value) :
  forall acc items_dict,
    Forall is_item_doc (map snd acc) ->
    convert_items items acc = Ok items_dict ->
    Forall is_item_doc (map snd items_dict).
Proof.
  induction items as [|item items IH]; intros acc items_dict Hacc H.
  - injection H as <-. exact Hacc.
  - cbn [convert_items] in H.
    apply bind_Ok in H as ([item_id cfg] & Hitem & H).
    apply bind_Ok in H as (k & _ & H).
    apply (IH _ _ (dict_set_values _ k cfg acc Hacc (convert_item_shape _ _ _ Hitem)) H).
Qed.

Lemma count_links_shape (configs : list value) :
  Forall is_item_doc configs ->
  count_links configs
  = Ok (list_sum (map (fun v => match field "links" v with
                                | Some (VList links) => List.length links
                                | _ => 0
                                end) configs)).
Proof.
  induction 1 as [|v configs [links ->] _ IH]; [reflexivity|].
  cbn [count_links]. rewrite IH. reflexivity.
Qed.

(** ** The file pipeline *)

Section Pipeline.

Variable TODAY : string.
Variable json_loads : string -> result value.

Lemma convert_category_shape (v2_data v1_data : value) :
  convert_category TODAY v2_data = Ok v1_data ->
  exists category_id items_dict,
    v1_data = VDict [ (KStr "categoryId", category_id);
                      (KStr "version", VInt VERSION);
                      (KStr "lastUpdated", VStr TODAY);
                      (KStr "items", VDict items_dict) ]
    /\ Forall is_item_doc (map snd items_dict).
Proof.
  unfold convert_category. intros H.
  apply bind_Ok in H as (category_id & _ & H).
  apply bind_Ok in H as (? & _ & H). apply bind_Ok in H as (? & _ & H).
  apply bind_Ok in H as (items_dict & Hitems & H). injection H as <-.
  exists category_id, items_dict. split; [reflexivity|].
  apply (convert_items_shape _ [] _ (Forall_nil _) Hitems).
Qed.

(** [convert_file] never raises: it returns whether the file converts,
    writes the document when it does, and prints two lines. *)
Lemma convert_file_spec (input : file) (w : world) :
  convert_file TODAY json_loads input w
  = (Ok (converts TODAY json_loads input),
     {| v1_dir := file_written TODAY json_loads input (v1_dir w);
        stdout := (stdout w ++ file_log TODAY json_loads input)%list |}).
Proof.
  unfold convert_file, try_except, convert_file_try, converts, file_written,
    file_log, conversion.
  unfold mbind at 1. unfold print at 1. unfold mbind at 1. unfold lift at 1.
  destruct (content input) as [raw|e]; cbn [bind].
  2:{ destruct e; cbn; rewrite <- app_assoc; reflexivity. }
  unfold mbind at 1. unfold lift at 1.
  destruct (parse_v2 json_loads (Str.strip raw)) as [v2_data|e]; cbn [bind].
  2:{ destruct e; cbn; rewrite <- app_assoc; reflexivity. }
  unfold mbind at 1. unfold lift at 1.
  destruct (convert_category TODAY v2_data) as [v1_data|e] eqn:Ecat; cbn [bind].
  2:{ destruct e; cbn; rewrite <- app_assoc; reflexivity. }
  destruct (convert_category_shape _ _ Ecat) as (cid & items_dict & -> & Hshape).
  unfold mbind, dump, lift, print, ret. cbn [py_getitem dict_get key_eqb String.eqb
    Ascii.eqb Bool.eqb py_len py_values v1_dir stdout].
  rewrite (count_links_shape _ Hshape).
  cbn [v1_dir stdout]. rewrite <- app_assoc.
  unfold item_count, link_count. cbn [field dict_get key_eqb String.eqb
    Ascii.eqb Bool.eqb]. rewrite map_map. reflexivity.
Qed.

End Pipeline.

(** ** What a well-typed source can raise: only a missing field *)

Lemma convert_link_typed (link : value) (idx : nat) :
  source_link link = true ->
  (exists v1_link, convert_link link idx = Ok v1_link)
  \/ convert_link link idx = Raise (KeyError (KStr "url")).
Proof.
  intros Hty. destruct link as [| | | | | |d]; try discriminate.
  destruct (dict_get (KStr "url") d) as [url|] eqn:Eurl.
  - left. eexists. exact (convert_link_source d idx url Hty Eurl).
  - right. unfold source_link, field_is in Hty.
    apply andb_true_iff in Hty as [Hr _].
    unfold convert_link, py_get, py_getitem. rewrite Eurl.
    destruct (dict_get (KStr "retailer") d) as [[]|]; try discriminate;
      reflexivity.
Qed.

Lemma convert_links_typed (links : list value) :
  forallb source_link links = true ->
  forall idx,
    (exists v1_links, convert_links links idx = Ok v1_links)
    \/ convert_links links idx = Raise (KeyError (KStr "url")).
Proof.
  induction links as [|link links IH]; intros Hty idx.
  - left. eexists. reflexivity.
  - simpl in Hty. apply andb_true_iff in Hty as [Hty Htys].
    cbn [convert_links].
    destruct (convert_link_typed link idx Hty) as [[v ->]| ->]; [|now right].
    cbn [bind]. destruct (IH Htys (S idx)) as [[vs ->]| ->]; [|now right].
    left. eexists. reflexivity.
Qed.

Lemma convert_item_typed (item : value) :
  source_item item = true ->
  (exists s item_config, convert_item item = Ok (VStr s, item_config))
  \/ exists k, convert_item item = Raise (KeyError k).
Proof.
  intros Hty. destruct item as [| | | | | |d]; try discriminate.
  destruct (source_item_links d Hty) as [Hget Htys].
  unfold source_item, field_is in Hty. apply andb_true_iff in Hty as [Hid _].
  unfold convert_item, py_getitem.
  destruct (dict_get (KStr "id") d) as [[| | | |s| |]|]; try discriminate.
  - cbn [bind]. rewrite Hget. cbn [bind py_iter].
    destruct (convert_links_typed _ Htys 0) as [[vs ->]| ->].
    + left. eexists _, _. reflexivity.
    + right. eexists. reflexivity.
  - right. eexists. reflexivity.
Qed.

Lemma convert_items_typed (items : list value) :
  forallb source_item items = true ->
  forall acc,
    (exists items_dict, convert_items items acc = Ok items_dict)
    \/ exists k, convert_items items acc = Raise (KeyError k).
Proof.
  induction items as [|item items IH]; intros Hty acc.
  - left. eexists. reflexivity.
  - simpl in Hty. apply andb_true_iff in Hty as [Hty Htys].
    cbn [convert_items].
    destruct (convert_item_typed item Hty) as [(s & cfg & ->)|[k ->]].
    + cbn [bind to_key]. apply IH, Htys.
    + right. exists k. reflexivity.
Qed.

(** ** An item without an id *)

Lemma convert_item_no_id (item : value) :
  has_field "id" item = false -> exists e, convert_item item = Raise e.
Proof.
  unfold has_field, dict_mem, convert_item, py_getitem.
  destruct item as [| | | | | |d]; try (intros _; eexists; reflexivity).
  destruct (dict_get (KStr "id") d); [discriminate|].
  intros _. eexists. reflexivity.
Qed.

Lemma convert_items_no_id (items : list value) (item : value) :
  In item items ->
  has_field "id" item = false ->
  forall acc, exists e, convert_items items acc = Raise e.
Proof.
  intros Hin Hno. induction items as [|head items IH]; [contradiction|].
  intros acc. cbn [convert_items].
  destruct Hin as [->|Hin].
  - destruct (convert_item_no_id item Hno) as [e ->]. exists e. reflexivity.
  - destruct (convert_item head) as [[item_id cfg]|e]; [|exists e; reflexivity].
    cbn [bind]. destruct (to_key item_id) as [k|e]; [|exists e; reflexivity].
    cbn [bind]. apply (IH Hin).
Qed.

Section MissingId.

Variable TODAY : string.
Variable json_loads : string -> result value.

Lemma convert_category_typed (category : value) :
  source_category category = true ->
  (exists v1_data, convert_category TODAY category = Ok v1_data)
  \/ exists k, convert_category TODAY category = Raise (KeyError k).
Proof.
  intros Hty. destruct category as [| | | | | |d]; try discriminate.
  destruct (source_category_items d Hty) as [Hget Htys].
  unfold convert_category, py_getitem.
  destruct (dict_get (KStr "id") d) as [category_id|].
  - cbn [bind]. rewrite Hget. cbn [bind py_iter].
    destruct (convert_items_typed _ Htys []) as [[out ->]|[k ->]].
    + left. eexists. reflexivity.
    + right. exists k. reflexivity.
  - right. eexists. reflexivity.
Qed.

Lemma convert_category_no_id (category item : value) :
  In item (category_items category) ->
  has_field "id" item = false ->
  exists e, convert_category TODAY category = Raise e.
Proof.
  intros Hin Hno. destruct category as [| | | | | |d]; try contradiction.
  unfold category_items in Hin. unfold convert_category, py_getitem, py_get.
  destruct (dict_get (KStr "id") d) as [category_id|];
    [|eexists; reflexivity].
  cbn [bind].
  destruct (dict_get (KStr "items") d) as [[| | | | |items|]|];
    try contradiction.
  cbn [bind py_iter].
  destruct (convert_items_no_id items item Hin Hno []) as [e ->].
  exists e. reflexivity.
Qed.

(** C9. When the parsed category holds an item with no [id], the
    conversion raises, [convert_file] returns [False] and writes nothing;
    for a well-typed category the exception is a [KeyError], reported by
    the missing-field clause. *)
Theorem item_without_id_fails (input : file) (raw : string)
        (category item : value) (w : world) :
  content input = Ok raw ->
  parse_v2 json_loads (Str.strip raw) = Ok category ->
  In item (category_items category) ->
  has_field "id" item = false ->
  (exists e,
      convert_category TODAY category = Raise e
      /\ convert_file TODAY json_loads input w
         = (Ok false,
            {| v1_dir := v1_dir w;
               stdout := (stdout w ++ [ Converting (name input);
                                        failure_message (name input) e ])%list |}))
  /\ (source_category category = true ->
      exists k,
        convert_category TODAY category = Raise (KeyError k)
        /\ convert_file TODAY json_loads input w
           = (Ok false,
              {| v1_dir := v1_dir w;
                 stdout := (stdout w ++ [ Converting (name input);
                                          MissingField (name input) k ])%list |})).
Proof.
  intros Hraw Hparse Hin Hno.
  destruct (convert_category_no_id category item Hin Hno) as [e He].
  assert (Hfile : convert_file TODAY json_loads input w
                  = (Ok false,
                     {| v1_dir := v1_dir w;
                        stdout := (stdout w ++ [ Converting (name input);
                                                 failure_message (name input) e ])%list |})).
  { rewrite convert_file_spec.
    unfold converts, file_written, file_log, conversion.
    rewrite Hraw. cbn [bind]. rewrite Hparse. cbn [bind]. rewrite He.
    reflexivity. }
  split.
  - exists e. split; assumption.
  - intros Hty. destruct (convert_category_typed category Hty) as [[v Hv]|[k Hk]].
    + congruence.
    + exists k. split; [exact Hk|].
      rewrite Hfile. replace e with (KeyError k) by congruence. reflexivity.
Qed.

End MissingId.

(** ** The batch driver *)

Section Batch.

Variable TODAY : string.
Variable json_loads : string -> result value.

Lemma convert_files_spec (v2_files : list file) :
  forall success_count fail_count w,
    convert_files TODAY json_loads v2_files success_count fail_count w
    = (Ok (success_count
           + List.length (filter (converts TODAY json_loads) v2_files),
           fail_count
           + List.length (filter (fun f => negb (converts TODAY json_loads f))
                                 v2_files)),
       {| v1_dir := fold_left (fun dir f => file_written TODAY json_loads f dir)
                              v2_files (v1_dir w);
          stdout := (stdout w ++ flat_map (file_log TODAY json_loads) v2_files)%list |}).
Proof.
  induction v2_files as [|f files IH]; intros s n w.
  - cbn. rewrite !Nat.add_0_r, app_nil_r. destruct w; reflexivity.
  - cbn [convert_files]. unfold mbind at 1. rewrite convert_file_spec.
    cbn [filter flat_map fold_left negb].
    destruct (converts TODAY json_loads f); rewrite IH; cbn [v1_dir stdout List.length negb];
      rewrite <- app_assoc, ?Nat.add_succ_r; reflexivity.
Qed.

Lemma no_failure_forallb (v2_files : list file) :
  Nat.eqb (List.length (filter (fun f => negb (converts TODAY json_loads f)) v2_files)) 0
  = forallb (converts TODAY json_loads) v2_files.
Proof.
  induction v2_files as [|f files IH]; [reflexivity|].
  cbn [filter forallb]. destruct (converts TODAY json_loads f); [exact IH|reflexivity].
Qed.



End Batch.

(** ** The end-to-end example *)

Section EndToEnd.

Variable TODAY : string.
Variable json_loads : string -> result value.

(** C1. A file whose stripped text is the example fragment is converted:
    [convert_file] returns [True] and writes exactly the expected document,
    dated with the day of the run. *)
Theorem end_to_end_example (input : file) (raw : string) (w : world) :
  content input = Ok raw ->
  Str.strip raw = example_fragment ->
  json_loads ("{" ++ example_fragment ++ "}") = Ok example_wrapped ->
  convert_file TODAY json_loads input w
  = (Ok true,
     {| v1_dir := file_put (name input) (example_output TODAY) (v1_dir w);
        stdout := (stdout w ++ [ Converting (name input);
                                 Converted (name input) 1 1 ])%list |}).
Proof.
  intros Hraw Hstrip Hloads. rewrite convert_file_spec.
  assert (Hconv : conversion TODAY json_loads input = Ok (example_output TODAY)).
  { unfold conversion. rewrite Hraw. cbn [bind]. rewrite Hstrip.
    unfold parse_v2.
    replace (Str.startswith (String dquote EmptyString) example_fragment)
      with true by (vm_compute; reflexivity).
    rewrite Hloads. reflexivity. }
  unfold converts, file_written, file_log. rewrite Hconv. reflexivity.
Qed.

End EndToEnd.

Lemma end_to_end_example_witness :
  (content example_file = Ok ("  " ++ example_fragment ++ newline)
   /\ Str.strip ("  " ++ example_fragment ++ newline) = example_fragment
   /\ Json.loads ("{" ++ example_fragment ++ "}") = Ok example_wrapped)
  /\ convert_file "2025-12-01" Json.loads example_file empty_world
     = (Ok true,
        {| v1_dir := [("bedding_sleep.json", example_output "2025-12-01")];
           stdout := [ Converting "bedding_sleep.json";
                       Converted "bedding_sleep.json" 1 1 ] |}).
Proof.
  assert (Hraw : content example_file = Ok ("  " ++ example_fragment ++ newline))
    by reflexivity.
  assert (Hstrip : Str.strip ("  " ++ example_fragment ++ newline) = example_fragment)
    by (vm_compute; reflexivity).
  assert (Hloads : Json.loads ("{" ++ example_fragment ++ "}") = Ok example_wrapped)
    by (vm_compute; reflexivity).
  split; [repeat split; assumption|].
  exact (end_to_end_example "2025-12-01" Json.loads example_file _ empty_world
           Hraw Hstrip Hloads).
Defined.

(** ** The theorems at sample inputs *)

Example convert_category_repeated_id :
  convert_category "2025-12-01" repeated_id
  = Ok (VDict
          [ (KStr "categoryId", VStr "bedding");
            (KStr "version", VInt 3);
            (KStr "lastUpdated", VStr "2025-12-01");
            (KStr "items",
             VDict
               [ (KStr "sheets",
                  VDict [ (KStr "itemVersion", VInt 1);
                          (KStr "links",
                           VList [ VDict [ (KStr "retailer", VStr "walmart");
                                           (KStr "url", VStr "http://last");
                                           (KStr "displayName", VNone);
                                           (KStr "affiliateTag", VStr "dormready");
                                           (KStr "priority", VInt 1) ] ]) ]);
                 (KStr "pillow",
                  VDict [ (KStr "itemVersion", VInt 1);
                          (KStr "links", VList []) ]) ]) ]).
Proof. reflexivity. Qed.

Lemma convert_category_items_witness :
  (source_category repeated_id = true /\ category_complete repeated_id = true)
  /\ exists category_id items_dict,
      convert_category "2025-12-01" repeated_id
      = Ok (VDict [ (KStr "categoryId", category_id);
                    (KStr "version", VInt VERSION);
                    (KStr "lastUpdated", VStr "2025-12-01");
                    (KStr "items", VDict items_dict) ])
      /\ field "id" repeated_id = Some category_id
      /\ NoDup (dict_keys items_dict)
      /\ (forall k, In k (dict_keys items_dict) <->
                    exists item, In item (category_items repeated_id)
                                 /\ field "id" item = Some (of_key k))
      /\ (forall before item after item_id,
             category_items repeated_id = (before ++ item :: after)%list ->
             field "id" item = Some item_id ->
             (forall later, In later after -> field "id" later <> Some item_id) ->
             exists k item_config,
               to_key item_id = Ok k
               /\ convert_item item = Ok (item_id, item_config)
               /\ dict_get k items_dict = Some item_config).
Proof.
  split; [split; reflexivity|].
  exact (convert_category_items "2025-12-01" repeated_id eq_refl eq_refl).
Defined.

Lemma item_without_id_fails_witness :
  (exists raw category item,
      content unnamed_item_file = Ok raw
      /\ parse_v2 Json.loads (Str.strip raw) = Ok category
      /\ In item (category_items category)
      /\ has_field "id" item = false
      /\ source_category category = true)
  /\ convert_file "2025-12-01" Json.loads unnamed_item_file empty_world
     = (Ok false,
        {| v1_dir := [];
           stdout := [ Converting "desk.json";
                       MissingField "desk.json" (KStr "id") ] |}).
Proof.
  pose (raw := Json.quoted
          "{'id': 'desk', 'items': [{'id': 'lamp'}, {'name': 'Desk mat'}]}").
  pose (item := VDict [ (KStr "name", VStr "Desk mat") ]).
  pose (category := VDict [ (KStr "id", VStr "desk");
                            (KStr "items",
                             VList [ VDict [ (KStr "id", VStr "lamp") ]; item ]) ]).
  assert (Hraw : content unnamed_item_file = Ok raw) by reflexivity.
  assert (Hparse : parse_v2 Json.loads (Str.strip raw) = Ok category)
    by (vm_compute; reflexivity).
  assert (Hin : In item (category_items category))
    by (right; left; reflexivity).
  assert (Hno : has_field "id" item = false) by reflexivity.
  assert (Hty : source_category category = true) by reflexivity.
  split.
  - exists raw, category, item. repeat split; assumption.
  - destruct (item_without_id_fails "2025-12-01" Json.loads unnamed_item_file
                raw category item empty_world Hraw Hparse Hin Hno)
      as [_ Htyped].
    destruct (Htyped Hty) as (k & Hk & Hfile).
    rewrite Hfile. vm_compute in Hk. injection Hk as <-. reflexivity.
Defined.


(** * Further properties *)

(** ** The normalisers on every input *)

(** The affiliate tag takes two values: the Amazon tag when the lowercased
    name contains "amazon", and "dormready" in every other case, Walmart
    and Target included. *)
Theorem get_affiliate_tag_two_values (retailer : string) :
  (Str.substring_of "amazon" (Str.lower retailer)
   /\ get_affiliate_tag retailer = "dormready-20")
  \/ (~ Str.substring_of "amazon" (Str.lower retailer)
      /\ get_affiliate_tag retailer = "dormready").
Proof.
  unfold get_affiliate_tag.
  destruct (Str.contains "amazon" (Str.lower retailer)) eqn:E.
  - left. split; [apply StrFacts.contains_iff, E|reflexivity].
  - right. split.
    + intros H. apply StrFacts.contains_iff in H. congruence.
    + destruct (Str.contains "walmart" (Str.lower retailer)),
               (Str.contains "target" (Str.lower retailer)); reflexivity.
Qed.

Lemma rstrip_suffix (s : string) : exists t, s = Str.rstrip s ++ t.
Proof.
  induction s as [|c s [t IH]]; [exists EmptyString; reflexivity|].
  simpl. destruct (Str.rstrip s) as [|c' r] eqn:E.
  - destruct (Str.is_space c).
    + exists (String c s). reflexivity.
    + exists t. simpl in IH. now rewrite <- IH.
  - exists t. simpl. rewrite IH at 1. reflexivity.
Qed.

Lemma lstrip_prefix (s : string) : exists t, s = t ++ Str.lstrip s.
Proof.
  induction s as [|c s [t IH]]; [exists EmptyString; reflexivity|].
  simpl. destruct (Str.is_space c).
  - exists (String c t). simpl. now rewrite <- IH.
  - exists EmptyString. reflexivity.
Qed.

Lemma string_app_assoc (a b c : string) : (a ++ b) ++ c = a ++ b ++ c.
Proof. induction a as [|x a IH]; simpl; [reflexivity|now rewrite IH]. Qed.

Lemma substring_of_strip (sub s : string) :
  Str.substring_of sub (Str.strip s) -> Str.substring_of sub s.
Proof.
  intros (pre & suf & H). unfold Str.strip in H.
  destruct (lstrip_prefix s) as [a Ha].
  destruct (rstrip_suffix (Str.lstrip s)) as [b Hb].
  exists (a ++ pre), (suf ++ b).
  rewrite Ha, Hb, H. now rewrite !string_app_assoc.
Qed.

Lemma lstrip_app (pre x : string) :
  x <> EmptyString -> Str.no_lead x = true ->
  Str.lstrip (pre ++ x) = Str.lstrip pre ++ x.
Proof.
  intros Hne Hx. induction pre as [|c pre IH]; simpl.
  - apply StrFacts.lstrip_fixed, Hx.
  - destruct (Str.is_space c); [exact IH|reflexivity].
Qed.

Lemma rstrip_cons (c : ascii) (y : string) :
  Str.is_space c = false \/ Str.rstrip y <> EmptyString ->
  Str.rstrip (String c y) = String c (Str.rstrip y).
Proof.
  simpl. destruct (Str.rstrip y); [|reflexivity].
  intros [->|H]; [reflexivity|congruence].
Qed.

Lemma rstrip_no_space (sub suf : string) :
  no_space sub = true -> Str.rstrip (sub ++ suf) = sub ++ Str.rstrip suf.
Proof.
  induction sub as [|c sub IH]; [reflexivity|]. simpl no_space.
  intros H. apply andb_true_iff in H as [Hc Hs].
  change (Str.rstrip (String c (sub ++ suf)) = String c (sub ++ Str.rstrip suf)).
  rewrite rstrip_cons, IH; [reflexivity|exact Hs|].
  left. now destruct (Str.is_space c).
Qed.

Lemma rstrip_app (x y : string) :
  Str.rstrip y <> EmptyString -> Str.rstrip (x ++ y) = x ++ Str.rstrip y.
Proof.
  intros Hy. induction x as [|c x IH]; [reflexivity|].
  change (Str.rstrip (String c (x ++ y)) = String c (x ++ Str.rstrip y)).
  rewrite rstrip_cons, IH; [reflexivity|].
  right. rewrite IH. destruct x; [exact Hy|discriminate].
Qed.

(** A word without spaces that occurs in a string occurs in the stripped
    string. *)
Lemma strip_substring_of (sub s : string) :
  sub <> EmptyString -> no_space sub = true ->
  Str.substring_of sub s -> Str.substring_of sub (Str.strip s).
Proof.
  intros Hne Hsub (pre & suf & ->). unfold Str.strip.
  assert (Hlead : Str.no_lead (sub ++ suf) = true).
  { destruct sub as [|c sub]; [congruence|]. simpl in Hsub |- *.
    now apply andb_true_iff in Hsub as [-> _]. }
  rewrite lstrip_app; [|destruct sub; [congruence|discriminate]|exact Hlead].
  rewrite rstrip_app.
  - rewrite rstrip_no_space by exact Hsub. eexists _, _. reflexivity.
  - rewrite rstrip_no_space by exact Hsub. destruct sub; [congruence|discriminate].
Qed.

Lemma contains_strip (sub s : string) :
  sub <> EmptyString -> no_space sub = true ->
  Str.contains sub (Str.strip s) = Str.contains sub s.
Proof.
  intros Hne Hsub.
  destruct (Str.contains sub s) eqn:E.
  - apply StrFacts.contains_iff. apply strip_substring_of; try assumption.
    apply StrFacts.contains_iff, E.
  - apply contains_false. intros H. apply substring_of_strip in H.
    apply StrFacts.contains_iff in H. congruence.
Qed.

(** The tag computed from the normalised retailer, as [convert_link] does,
    is the tag of the retailer as written: stripping and lowercasing a name
    never changes its tag. *)
Theorem get_affiliate_tag_normalize_retailer (retailer : string) :
  get_affiliate_tag (normalize_retailer retailer) = get_affiliate_tag retailer.
Proof.
  unfold get_affiliate_tag, normalize_retailer.
  rewrite StrFacts.lower_strip, StrFacts.lower_idem.
  rewrite !contains_strip by (discriminate || reflexivity). reflexivity.
Qed.

Lemma has_char_replace_same (a u : ascii) (s : string) :
  a <> u -> has_char a (Str.replace a u s) = false.
Proof.
  intros Hne. induction s as [|c s IH]; [reflexivity|]. simpl. rewrite IH.
  destruct (Ascii.eqb c a) eqn:E.
  - destruct (Ascii.eqb u a) eqn:E'; [|reflexivity].
    apply Ascii.eqb_eq in E'. congruence.
  - rewrite E. reflexivity.
Qed.

Lemma has_char_replace_other (a b u : ascii) (s : string) :
  a <> u -> has_char a s = false -> has_char a (Str.replace b u s) = false.
Proof.
  intros Hne. induction s as [|c s IH]; [reflexivity|]. simpl.
  intros H. apply orb_false_iff in H as [Hc Hs]. rewrite (IH Hs).
  destruct (Ascii.eqb c b); [|now rewrite Hc].
  destruct (Ascii.eqb u a) eqn:E'; [|reflexivity].
  apply Ascii.eqb_eq in E'. congruence.
Qed.

Lemma lower_replace (a u : ascii) (s : string) :
  Str.lower_char u = u -> Str.lower s = s ->
  Str.lower (Str.replace a u s) = Str.replace a u s.
Proof.
  intros Hu. induction s as [|c s IH]; [reflexivity|]. simpl.
  intros H. injection H as Hc Hs. rewrite (IH Hs).
  destruct (Ascii.eqb c a); now rewrite ?Hu, ?Hc.
Qed.

Lemma table_get_In (k t : string) (table : list (string * string)) :
  table_get k table = Some t -> In t (map snd table).
Proof.
  induction table as [|[k' v] table IH]; simpl; [discriminate|].
  destruct (String.eqb k' k); [|auto].
  intros H. injection H as ->. now left.
Qed.

(** A tag: lowercase, without space and without hyphen. *)
Lemma BADGE_MAPPING_tags (t : string) :
  In t (map snd BADGE_MAPPING) ->
  Str.lower t = t /\ has_char " " t = false /\ has_char "-" t = false.
Proof.
  unfold BADGE_MAPPING. simpl.
  intros H. repeat (destruct H as [<-|H]; [repeat split; reflexivity|]).
  contradiction.
Qed.

(** Whatever the badge, the tag [normalize_badge] returns is lowercase and
    has neither a space nor a hyphen in it. *)
Theorem normalize_badge_snake_case (badge tag : string) :
  normalize_badge (Some badge) = Some tag ->
  Str.lower tag = tag /\ has_char " " tag = false /\ has_char "-" tag = false.
Proof.
  destruct badge as [|c badge]; [discriminate|].
  unfold normalize_badge. set (x := Str.strip (Str.lower (String c badge))).
  assert (Hx : Str.lower x = x).
  { unfold x. now rewrite StrFacts.lower_strip, StrFacts.lower_idem. }
  destruct (table_get x BADGE_MAPPING) as [t|] eqn:E.
  - intros H. injection H as <-. apply BADGE_MAPPING_tags, (table_get_In _ _ _ E).
  - intros H. injection H as <-. split; [|split].
    + apply lower_replace; [reflexivity|]. apply lower_replace; [reflexivity|exact Hx].
    + apply has_char_replace_other; [discriminate|].
      apply has_char_replace_same. discriminate.
    + apply has_char_replace_same. discriminate.
Qed.

Lemma normalize_badge_snake_case_witness :
  normalize_badge (Some "  Ships Free - 2-Day ") = Some "ships_free___2_day"
  /\ Str.lower "ships_free___2_day" = "ships_free___2_day"
  /\ has_char " " "ships_free___2_day" = false
  /\ has_char "-" "ships_free___2_day" = false.
Proof.
  split; [reflexivity|].
  exact (normalize_badge_snake_case "  Ships Free - 2-Day " _ eq_refl).
Defined.

Lemma strip_lower_empty (b : string) :
  Str.strip b = EmptyString -> Str.strip (Str.lower b) = EmptyString.
Proof. intros H. now rewrite <- StrFacts.lower_strip, H. Qed.

(** [normalize_badge] answers [None] for [None] and for the empty string
    only: a badge of nothing but whitespace is not empty and gets the
    empty tag. *)
Theorem normalize_badge_none_iff (badge : option string) :
  (normalize_badge badge = None <-> badge = None \/ badge = Some EmptyString)
  /\ (forall b, badge = Some b -> b <> EmptyString -> Str.strip b = EmptyString ->
                normalize_badge badge = Some EmptyString).
Proof.
  split.
  - destruct badge as [[|c b]|]; simpl; split; intros H;
      try discriminate; try tauto.
    destruct H as [H|H]; discriminate.
  - intros b -> Hne Hstrip. rewrite normalize_badge_phrase by exact Hne.
    rewrite (strip_lower_empty b Hstrip). reflexivity.
Qed.

Lemma normalize_badge_none_iff_witness :
  Str.strip "   " = EmptyString
  /\ normalize_badge (Some "   ") = Some EmptyString.
Proof.
  split; [reflexivity|].
  apply (proj2 (normalize_badge_none_iff (Some "   ")) "   ");
    [reflexivity|discriminate|reflexivity].
Defined.

(** ** Which links convert *)

Lemma call_normalize_badge_accepted (v : value) :
  badge_accepted v = true -> call_normalize_badge v = Ok (badge_tag v).
Proof.
  destruct v; cbn [badge_accepted call_normalize_badge badge_tag];
    try reflexivity; intros H; apply negb_true_iff in H; now rewrite H.
Qed.

Lemma call_normalize_badge_refused (v : value) :
  badge_accepted v = false -> call_normalize_badge v = Raise AttributeError.
Proof.
  destruct v; cbn [badge_accepted call_normalize_badge];
    try discriminate; intros H; apply negb_false_iff in H; now rewrite H.
Qed.

Lemma call_normalize_retailer_field (d : dict) :
  field_is "retailer" is_string d = true ->
  call_normalize_retailer
    match dict_get (KStr "retailer") d with
    | Some v => v
    | None => VStr EmptyString
    end
  = Ok (normalize_retailer (retailer_of (VDict d))).
Proof.
  unfold field_is, retailer_of, field.
  destruct (dict_get (KStr "retailer") d) as [[]|]; try discriminate; reflexivity.
Qed.

Lemma field_not_none_dict (k : string) (d : dict) :
  field_not_none k (VDict d)
  = match dict_get (KStr k) d with
    | Some VNone => None
    | o => o
    end.
Proof. reflexivity. Qed.

(** What [convert_link] does on every value: the LinkDoc [link_doc] for an
    accepted link; else the exception of the first step that fails. *)
Lemma convert_link_cases (link : value) (idx : nat) :
  (link_accepted link = true ->
   exists url, field "url" link = Some url
               /\ convert_link link idx = Ok (VDict (link_doc link idx url)))
  /\ (link_accepted link = false ->
      convert_link link idx = Raise AttributeError
      \/ (convert_link link idx = Raise (KeyError (KStr "url"))
          /\ exists d, link = VDict d
                       /\ field_is "retailer" is_string d = true
                       /\ dict_mem (KStr "url") d = false)).
Proof.
  destruct link as [| | | | | |d];
    try (split; [discriminate|intros _; left; reflexivity]).
  unfold link_accepted, dict_mem.
  destruct (field_is "retailer" is_string d) eqn:Hr.
  2:{ split; [discriminate|]. intros _. left.
      unfold convert_link, py_get, field_is in *.
      destruct (dict_get (KStr "retailer") d) as [[]|]; try discriminate;
        reflexivity. }
  pose proof (call_normalize_retailer_field d Hr) as Hret.
  destruct (dict_get (KStr "url") d) as [url|] eqn:Eurl.
  2:{ split; [discriminate|]. intros _. right. split.
      - unfold convert_link, py_get, py_getitem. cbn [bind].
        rewrite Hret, Eurl. reflexivity.
      - exists d. unfold dict_mem. rewrite Eurl. repeat split. exact Hr. }
  assert (Hrun : convert_link (VDict d) idx
                 = match field_not_none "badge" (VDict d) with
                   | Some v =>
                       bind (call_normalize_badge v)
                            (fun b => Ok (VDict
                               (([ (KStr "retailer",
                                    VStr (normalize_retailer (retailer_of (VDict d))));
                                   (KStr "url", url);
                                   (KStr "displayName",
                                     match field "displayName" (VDict d) with
                                     | Some v => v
                                     | None => VNone
                                     end);
                                   (KStr "affiliateTag",
                                     VStr (get_affiliate_tag
                                             (normalize_retailer (retailer_of (VDict d)))));
                                   (KStr "priority", VInt (Z.of_nat idx + 1)) ]
                                 ++ opt_entry "averageRating"
                                      (field_not_none "averageRating" (VDict d))
                                 ++ opt_entry "reviewCount"
                                      (field_not_none "reviewCount" (VDict d)))
                                ++ [(KStr "badge", b)])%list))
                   | None => Ok (VDict (link_doc (VDict d) idx url))
                   end).
  { unfold convert_link, link_doc. rewrite !present_not_none_dict.
    unfold py_get, py_getitem. cbn [bind]. rewrite Hret, Eurl. cbn [bind field].
    destruct (field_not_none "averageRating" (VDict d)),
             (field_not_none "reviewCount" (VDict d)),
             (field_not_none "badge" (VDict d)); reflexivity. }
  rewrite Hrun. cbn [andb]. unfold field_is, link_doc.
  rewrite !(field_not_none_dict "badge"). cbn [field]. rewrite Eurl.
  destruct (dict_get (KStr "badge") d) as [v|] eqn:Eb.
  - destruct (badge_accepted v) eqn:Hv.
    + split; [|discriminate]. intros _. exists url. split; [reflexivity|].
      destruct v; try reflexivity;
        rewrite call_normalize_badge_accepted by exact Hv;
        cbn [bind option_map opt_entry]; rewrite <- !app_assoc; reflexivity.
    + split; [discriminate|]. intros _. left.
      destruct v; try discriminate;
        rewrite call_normalize_badge_refused by exact Hv; reflexivity.
  - split; [|discriminate]. intros _. exists url. split; reflexivity.
Qed.

Lemma normalize_retailer_idem (s : string) :
  normalize_retailer (normalize_retailer s) = normalize_retailer s.
Proof.
  unfold normalize_retailer.
  rewrite <- StrFacts.lower_strip, StrFacts.strip_idem.
  now rewrite StrFacts.lower_strip, StrFacts.lower_idem.
Qed.

(** [convert_link] converts exactly the accepted links, whatever the
    index. Of the others, a dict with no [url] whose [retailer] is absent
    or a string raises [KeyError] for [url]; every other one raises
    [AttributeError]: a value that is no dict, a [retailer] that is no
    string (even when the [url] is missing too), a truthy [badge] that is
    no string. *)
Theorem convert_link_succeeds_iff (link : value) (idx : nat) :
  ((exists v1_link, convert_link link idx = Ok v1_link)
   <-> link_accepted link = true)
  /\ (convert_link link idx = Raise (KeyError (KStr "url"))
      <-> exists d, link = VDict d
                    /\ field_is "retailer" is_string d = true
                    /\ dict_mem (KStr "url") d = false)
  /\ (link_accepted link = false ->
      (forall d, link = VDict d ->
                 field_is "retailer" is_string d = true ->
                 dict_mem (KStr "url") d = true) ->
      convert_link link idx = Raise AttributeError).
Proof.
  destruct (convert_link_cases link idx) as [Hyes Hno].
  destruct (link_accepted link) eqn:Hacc.
  - destruct (Hyes eq_refl) as (url & Hurl & Hconv).
    split; [|split].
    + split; [reflexivity|]. intros _. eexists. exact Hconv.
    + split; [rewrite Hconv; discriminate|].
      intros (d & -> & _ & Hmem). unfold link_accepted in Hacc.
      rewrite Hmem, andb_false_r in Hacc. discriminate.
    + discriminate.
  - destruct (Hno eq_refl) as [Hattr|(Hkey & d & -> & Hr & Hmem)].
    + split; [|split].
      * split; [|discriminate]. intros [v Hv]. congruence.
      * split; [congruence|].
        intros (d & -> & Hr & Hmem). exfalso.
        unfold convert_link, py_get, py_getitem, dict_mem in *.
        cbn [bind] in Hattr. rewrite (call_normalize_retailer_field d Hr) in Hattr.
        cbn [bind] in Hattr.
        destruct (dict_get (KStr "url") d); discriminate.
      * intros _ _. exact Hattr.
    + split; [|split].
      * split; [|discriminate]. intros [v Hv]. congruence.
      * split; [|intros _; exact Hkey]. intros _. exists d. repeat split; assumption.
      * intros _ H. rewrite (H d eq_refl Hr) in Hmem. discriminate.
Qed.

Lemma convert_link_succeeds_iff_witness :
  link_accepted numeric_retailer_link = false
  /\ convert_link numeric_retailer_link 0 = Raise AttributeError.
Proof.
  split; [reflexivity|].
  apply (proj2 (proj2 (convert_link_succeeds_iff numeric_retailer_link 0)));
    [reflexivity|].
  intros d H. injection H as <-. discriminate.
Defined.

Lemma link_doc_keys_order (link : value) (idx : nat) (url : value) :
  dict_keys (link_doc link idx url)
  = filter (fun k => dict_mem k (link_doc link idx url)) link_doc_keys.
Proof.
  unfold link_doc.
  destruct (field_not_none "averageRating" link),
           (field_not_none "reviewCount" link),
           (field_not_none "badge" link); reflexivity.
Qed.

(** Every LinkDoc [convert_link] returns: its retailer is normalised, its
    tag is the tag of that retailer, its [url] is the source's, its
    priority is the index plus one, and its keys are, once each and in
    this order, [retailer], [url], [displayName], [affiliateTag],
    [priority] and those of [averageRating], [reviewCount], [badge] it
    has. *)
Theorem convert_link_doc_invariant (link : value) (idx : nat) (v1_link : value) :
  convert_link link idx = Ok v1_link ->
  exists d r,
    v1_link = VDict d
    /\ dict_get (KStr "retailer") d = Some (VStr r)
    /\ normalize_retailer r = r
    /\ dict_get (KStr "affiliateTag") d = Some (VStr (get_affiliate_tag r))
    /\ dict_get (KStr "url") d = field "url" link
    /\ dict_get (KStr "priority") d = Some (VInt (Z.of_nat idx + 1))
    /\ (exists name, dict_get (KStr "displayName") d = Some name)
    /\ dict_keys d = filter (fun k => dict_mem k d) link_doc_keys.
Proof.
  intros H. destruct (convert_link_cases link idx) as [Hyes Hno].
  destruct (link_accepted link).
  - destruct (Hyes eq_refl) as (url & Hurl & Hconv).
    rewrite Hconv in H. injection H as <-.
    exists (link_doc link idx url), (normalize_retailer (retailer_of link)).
    split; [reflexivity|]. split; [reflexivity|].
    split; [apply normalize_retailer_idem|]. split; [reflexivity|].
    split; [rewrite Hurl; reflexivity|]. split; [reflexivity|].
    split; [eexists; reflexivity|]. apply link_doc_keys_order.
  - destruct (Hno eq_refl) as [H'|[H' _]]; congruence.
Qed.

Lemma convert_link_doc_invariant_witness :
  exists d r,
    VDict [ (KStr "retailer", VStr "target");
            (KStr "url", VStr "http://t");
            (KStr "displayName", VNone);
            (KStr "affiliateTag", VStr "dormready");
            (KStr "priority", VInt 3);
            (KStr "reviewCount", VInt 12) ] = VDict d
    /\ dict_get (KStr "retailer") d = Some (VStr r)
    /\ normalize_retailer r = r
    /\ dict_get (KStr "affiliateTag") d = Some (VStr (get_affiliate_tag r))
    /\ dict_get (KStr "url") d = field "url" full_link
    /\ dict_get (KStr "priority") d = Some (VInt (Z.of_nat 2 + 1))
    /\ (exists name, dict_get (KStr "displayName") d = Some name)
    /\ dict_keys d = filter (fun k => dict_mem k d) link_doc_keys.
Proof.
  exact (convert_link_doc_invariant full_link 2 _ eq_refl).
Defined.

(** ** The links of an item, one by one *)

Lemma convert_links_first_failure (before : list value) :
  forall idx link after e,
    (forall i l, nth_error before i = Some l ->
                 exists v1_link, convert_link l (idx + i) = Ok v1_link) ->
    convert_link link (idx + List.length before) = Raise e ->
    convert_links (before ++ link :: after) idx = Raise e.
Proof.
  induction before as [|b before IH]; intros idx link after e Hok Hfail.
  - simpl in *. rewrite Nat.add_0_r in Hfail. now rewrite Hfail.
  - cbn [app convert_links].
    destruct (Hok 0 b eq_refl) as [o Ho]. rewrite Nat.add_0_r in Ho.
    rewrite Ho. cbn [bind].
    rewrite (IH (S idx) link after e); [reflexivity| |].
    + intros i l Hn. destruct (Hok (S i) l Hn) as [o' Ho'].
      exists o'. now rewrite Nat.add_succ_r in Ho'.
    + simpl in Hfail. now rewrite Nat.add_succ_r in Hfail.
Qed.

(** When an item converts, its [links] array has one LinkDoc per source
    link, in the source order: the one at position [i] is the conversion
    of the source link at position [i] with index [i], so its priority is
    [i + 1] and its [url] the source's. *)
Theorem convert_item_links_in_order (d : dict) (links : list value)
        (item_id item_config : value) :
  dict_get (KStr "affiliateLinks") d = Some (VList links) ->
  convert_item (VDict d) = Ok (item_id, item_config) ->
  exists v1_links,
    item_config = VDict [ (KStr "itemVersion", VInt 1);
                          (KStr "links", VList v1_links) ]
    /\ dict_get (KStr "id") d = Some item_id
    /\ List.length v1_links = List.length links
    /\ forall i link,
        nth_error links i = Some link ->
        exists v1_link,
          nth_error v1_links i = Some v1_link
          /\ convert_link link i = Ok v1_link
          /\ field "priority" v1_link = Some (VInt (Z.of_nat i + 1))
          /\ field "url" v1_link = field "url" link.
Proof.
  intros Hlinks H. unfold convert_item, py_getitem, py_get in H.
  rewrite Hlinks in H.
  destruct (dict_get (KStr "id") d) as [id|]; [|discriminate].
  cbn [bind py_iter] in H. apply bind_Ok in H as (out & Hout & H).
  injection H as <- <-. exists out.
  destruct (convert_links_pointwise _ _ _ Hout) as [Hlen Hnth].
  repeat split; try assumption.
  intros i link Hn. destruct (Hnth i link Hn) as (o & Ho & Hc).
  cbn [Nat.add] in Hc.
  exists o. split; [exact Ho|]. split; [exact Hc|].
  destruct (convert_link_cases link i) as [Hyes Hno].
  destruct (link_accepted link).
  - destruct (Hyes eq_refl) as (url & Hurl & Hdoc).
    rewrite Hdoc in Hc. injection Hc as <-. rewrite Hurl. split; reflexivity.
  - destruct (Hno eq_refl) as [H'|[H' _]]; congruence.
Qed.

Lemma convert_item_links_in_order_witness :
  exists v1_links,
    VDict [ (KStr "itemVersion", VInt 1);
            (KStr "links",
             VList [ VDict [ (KStr "retailer", VStr EmptyString);
                             (KStr "url", VStr "http://a");
                             (KStr "displayName", VNone);
                             (KStr "affiliateTag", VStr "dormready");
                             (KStr "priority", VInt 1) ];
                     VDict [ (KStr "retailer", VStr "amazon");
                             (KStr "url", VStr "http://b");
                             (KStr "displayName", VStr "Lamp");
                             (KStr "affiliateTag", VStr "dormready-20");
                             (KStr "priority", VInt 2) ] ]) ]
    = VDict [ (KStr "itemVersion", VInt 1); (KStr "links", VList v1_links) ]
    /\ dict_get (KStr "id") two_links_item = Some (VInt 9)
    /\ List.length v1_links = List.length two_links
    /\ forall i link,
        nth_error two_links i = Some link ->
        exists v1_link,
          nth_error v1_links i = Some v1_link
          /\ convert_link link i = Ok v1_link
          /\ field "priority" v1_link = Some (VInt (Z.of_nat i + 1))
          /\ field "url" v1_link = field "url" link.
Proof.
  exact (convert_item_links_in_order two_links_item two_links (VInt 9) _
           eq_refl eq_refl).
Defined.

(** When a link of an item does not convert, the item fails with the
    exception of the first such link; the links after it are not looked
    at. *)
Theorem convert_item_first_bad_link (d : dict) (item_id : value)
        (before after : list value) (link : value) (e : exn) :
  dict_get (KStr "id") d = Some item_id ->
  dict_get (KStr "affiliateLinks") d = Some (VList (before ++ link :: after)) ->
  forallb link_accepted before = true ->
  convert_link link (List.length before) = Raise e ->
  convert_item (VDict d) = Raise e.
Proof.
  intros Hid Hlinks Hbefore Hfail. unfold convert_item, py_getitem, py_get.
  rewrite Hid, Hlinks. cbn [bind py_iter].
  rewrite (convert_links_first_failure before 0 link after e); [reflexivity| |exact Hfail].
  intros i l Hn. apply nth_error_In in Hn.
  rewrite forallb_forall in Hbefore.
  destruct (proj1 (convert_link_cases l (0 + i)) (Hbefore l Hn)) as (url & _ & Hc).
  eexists. exact Hc.
Qed.

Lemma convert_item_first_bad_link_witness :
  convert_item (VDict bad_second_link_item) = Raise (KeyError (KStr "url")).
Proof.
  exact (convert_item_first_bad_link bad_second_link_item (VStr "lamp")
           [ VDict [ (KStr "url", VStr "http://a") ] ] [ VInt 5 ]
           (VDict [ (KStr "retailer", VStr "Target") ]) _
           eq_refl eq_refl eq_refl eq_refl).
Defined.

(** ** Which categories convert *)

Lemma convert_link_Ok_accepted (link : value) (idx : nat) (v1_link : value) :
  convert_link link idx = Ok v1_link -> link_accepted link = true.
Proof.
  intros H. destruct (link_accepted link) eqn:E; [reflexivity|].
  destruct (proj2 (convert_link_cases link idx) E) as [H'|[H' _]]; congruence.
Qed.

Lemma link_accepted_url (link : value) :
  link_accepted link = true -> has_field "url" link = true.
Proof.
  destruct link; try discriminate. unfold link_accepted, has_field.
  intros H. apply andb_true_iff in H as [H _].
  now apply andb_true_iff in H as [_ H].
Qed.

Lemma convert_links_Ok_urls (links : list value) (idx : nat) (v1_links : list value) :
  convert_links links idx = Ok v1_links ->
  forallb (has_field "url") links = true.
Proof.
  intros H. apply forallb_forall. intros link Hin.
  apply In_nth_error in Hin as [i Hi].
  destruct (proj2 (convert_links_pointwise _ _ _ H) i link Hi) as (o & _ & Ho).
  apply link_accepted_url, (convert_link_Ok_accepted _ _ _ Ho).
Qed.

Lemma convert_item_Ok_complete (item : value) (r : value * value) :
  source_item item = true -> convert_item item = Ok r ->
  item_complete item = true.
Proof.
  intros Hty H. destruct item as [| | | | | |d]; try discriminate.
  destruct (source_item_links d Hty) as [Hget _].
  unfold convert_item in H. rewrite Hget in H. unfold py_getitem in H.
  unfold item_complete, has_field, dict_mem.
  destruct (dict_get (KStr "id") d); [|discriminate].
  cbn [bind py_iter] in H. apply bind_Ok in H as (out & Hout & _).
  apply (convert_links_Ok_urls _ _ _ Hout).
Qed.

Lemma convert_items_Ok_complete (items : list value) :
  forallb source_item items = true ->
  forall acc items_dict,
    convert_items items acc = Ok items_dict ->
    forallb item_complete items = true.
Proof.
  induction items as [|item items IH]; intros Hty acc out H; [reflexivity|].
  simpl in Hty. apply andb_true_iff in Hty as [Hty Htys].
  cbn [convert_items] in H. apply bind_Ok in H as ([id cfg] & Hitem & H).
  apply bind_Ok in H as (k & _ & H). simpl.
  rewrite (convert_item_Ok_complete _ _ Hty Hitem). apply (IH Htys _ _ H).
Qed.

Lemma convert_item_typed_missing (item : value) (e : exn) :
  source_item item = true -> convert_item item = Raise e -> missing_field e.
Proof.
  intros Hty H. destruct item as [| | | | | |d]; try discriminate.
  destruct (source_item_links d Hty) as [Hget Htys].
  unfold convert_item in H. rewrite Hget in H. unfold py_getitem in H.
  destruct (dict_get (KStr "id") d).
  - cbn [bind py_iter] in H.
    destruct (convert_links_typed _ Htys 0) as [[vs Hvs]|Hvs];
      rewrite Hvs in H; [discriminate|].
    injection H as <-. now right.
  - injection H as <-. now left.
Qed.

Lemma convert_items_typed_missing (items : list value) :
  forallb source_item items = true ->
  forall acc e, convert_items items acc = Raise e -> missing_field e.
Proof.
  induction items as [|item items IH]; intros Hty acc e H; [discriminate|].
  simpl in Hty. apply andb_true_iff in Hty as [Hty Htys].
  cbn [convert_items] in H.
  destruct (convert_item item) as [[id cfg]|e'] eqn:Hitem.
  - destruct (convert_item_typed item Hty) as [(s & cfg' & Hs)|[k Hk]];
      [|congruence].
    rewrite Hitem in Hs. injection Hs as -> ->.
    cbn [bind to_key] in H. apply (IH Htys _ _ H).
  - injection H as <-. apply (convert_item_typed_missing _ _ Hty Hitem).
Qed.

Section CategoryOutcome.

Variable TODAY : string.

(** A well-typed category converts exactly when no required field is
    missing; when one is, the exception is the [KeyError] of [id] or of
    [url], and never another. *)
Theorem convert_category_succeeds_iff (category : value) :
  source_category category = true ->
  ((exists v1_data, convert_category TODAY category = Ok v1_data)
   <-> category_complete category = true)
  /\ (forall e, convert_category TODAY category = Raise e ->
                e = KeyError (KStr "id") \/ e = KeyError (KStr "url")).
Proof.
  intros Hty. destruct category as [| | | | | |d]; try discriminate.
  destruct (source_category_items d Hty) as [Hget Htys].
  unfold convert_category, category_complete, has_field, dict_mem, py_getitem.
  rewrite Hget.
  destruct (dict_get (KStr "id") d) as [cid|].
  2:{ split; [|intros e H; injection H as <-; now left].
      split; [intros [v H]|]; discriminate. }
  cbn [bind py_iter andb].
  destruct (convert_items (category_items (VDict d)) []) as [out|e'] eqn:Hrun;
    cbn [bind].
  - split; [|discriminate].
    split; [|intros _; eexists; reflexivity].
    intros _. apply (convert_items_Ok_complete _ Htys _ _ Hrun).
  - split.
    + split; [intros [v H]; discriminate|]. intros Hc.
      destruct (convert_items_source _ Htys Hc []) as (out & Hout & _). congruence.
    + intros e H. injection H as <-.
      apply (convert_items_typed_missing _ Htys _ _ Hrun).
Qed.

End CategoryOutcome.

Lemma convert_category_succeeds_iff_witness :
  source_category unnamed_item_category = true
  /\ category_complete unnamed_item_category = false
  /\ ~ (exists v1_data,
          convert_category "2025-12-01" unnamed_item_category = Ok v1_data)
  /\ (forall e, convert_category "2025-12-01" unnamed_item_category = Raise e ->
                e = KeyError (KStr "id") \/ e = KeyError (KStr "url")).
Proof.
  destruct (convert_category_succeeds_iff "2025-12-01" unnamed_item_category
              eq_refl) as [Hiff Hkey].
  split; [reflexivity|]. split; [reflexivity|]. split; [|exact Hkey].
  intros H. apply Hiff in H. discriminate H.
Defined.

(** ** The order of the items mapping *)

Lemma dict_mem_existsb (k : key) (d : dict) :
  dict_mem k d = existsb (fun k' => key_eqb k' k) (dict_keys d).
Proof.
  unfold dict_mem. induction d as [|[k' v] d IH]; [reflexivity|]. simpl.
  destruct (key_eqb k' k); [reflexivity|exact IH].
Qed.

Lemma dict_keys_add_once (s : string) (v : value) (d : dict) :
  dict_keys (dict_set (KStr s) v d) = add_once (dict_keys d) (KStr s).
Proof. unfold add_once. now rewrite dict_keys_set, dict_mem_existsb. Qed.

Lemma convert_items_keys (items : list value) :
  forallb source_item items = true ->
  forallb item_complete items = true ->
  forall acc items_dict,
    convert_items items acc = Ok items_dict ->
    dict_keys items_dict
    = fold_left add_once (map KStr (item_ids items)) (dict_keys acc).
Proof.
  induction items as [|item items IH]; intros Hty Hc acc out H.
  - injection H as <-. reflexivity.
  - simpl in Hty, Hc.
    apply andb_true_iff in Hty as [Hty Htys].
    apply andb_true_iff in Hc as [Hc Hcs].
    destruct (convert_item_source item Hty Hc) as (id & links & Hid & Hconv & _).
    cbn [convert_items] in H. rewrite Hconv in H. cbn [bind to_key] in H.
    rewrite (IH Htys Hcs _ _ H), dict_keys_add_once.
    unfold item_ids. cbn [flat_map]. rewrite Hid. reflexivity.
Qed.

Lemma item_ids_length (items : list value) :
  List.length (item_ids items) <= List.length items.
Proof.
  induction items as [|it its IH]; [apply Nat.le_refl|].
  change (item_ids (it :: its))
    with ((match field "id" it with Some (VStr s) => [s] | _ => [] end)
          ++ item_ids its)%list.
  rewrite length_app. cbn [List.length].
  destruct (field "id" it) as [[]|]; cbn [List.length]; lia.
Qed.

Section ItemsOrder.

Variable TODAY : string.

(** The ids of the items mapping come in the order in which they first
    occur in the source: an id that comes again takes the later item's
    ItemDoc at the place of the first. *)
Theorem convert_category_items_order (category v1_data : value) :
  source_category category = true ->
  convert_category TODAY category = Ok v1_data ->
  exists items_dict,
    field "items" v1_data = Some (VDict items_dict)
    /\ dict_keys items_dict = distinct_in_order (item_ids (category_items category))
    /\ List.length items_dict <= List.length (category_items category).
Proof.
  intros Hty H. destruct category as [| | | | | |d]; try discriminate.
  destruct (source_category_items d Hty) as [Hget Htys].
  unfold convert_category in H. rewrite Hget in H.
  apply bind_Ok in H as (cid & _ & H). cbn [bind py_iter] in H.
  apply bind_Ok in H as (out & Hrun & H). injection H as <-.
  exists out. split; [reflexivity|].
  pose proof (convert_items_Ok_complete _ Htys _ _ Hrun) as Hc.
  pose proof (convert_items_keys _ Htys Hc _ _ Hrun) as Hkeys.
  split; [exact Hkeys|].
  assert (Hlen : forall ids seen,
             List.length (fold_left add_once ids seen)
             <= List.length seen + List.length ids).
  { induction ids as [|k ids IH]; intros seen; simpl; [lia|].
    specialize (IH (add_once seen k)). unfold add_once in IH |- *.
    destruct (existsb (fun k' => key_eqb k' k) seen); [lia|].
    rewrite length_app in IH. simpl in IH. lia. }
  pose proof (item_ids_length (category_items (VDict d))) as Hids.
  unfold dict_keys in Hkeys. rewrite <- (length_map fst), Hkeys.
  eapply Nat.le_trans; [apply Hlen|].
  cbn [map List.length Nat.add]. rewrite length_map. exact Hids.
Qed.

End ItemsOrder.

Lemma convert_category_items_order_witness :
  exists items_dict,
    field "items"
      (VDict
         [ (KStr "categoryId", VStr "bedding");
           (KStr "version", VInt 3);
           (KStr "lastUpdated", VStr "2025-12-01");
           (KStr "items",
            VDict
              [ (KStr "sheets",
                 VDict [ (KStr "itemVersion", VInt 1);
                         (KStr "links",
                          VList [ VDict [ (KStr "retailer", VStr "walmart");
                                          (KStr "url", VStr "http://last");
                                          (KStr "displayName", VNone);
                                          (KStr "affiliateTag", VStr "dormready");
                                          (KStr "priority", VInt 1) ] ]) ]);
                (KStr "pillow",
                 VDict [ (KStr "itemVersion", VInt 1);
                         (KStr "links", VList []) ]) ]) ])
    = Some (VDict items_dict)
    /\ dict_keys items_dict = [KStr "sheets"; KStr "pillow"]
    /\ List.length items_dict <= 3.
Proof.
  exact (convert_category_items_order "2025-12-01" repeated_id _ eq_refl eq_refl).
Defined.

(** ** Fragments *)

Section Fragment.

Variable TODAY : string.
Variable json_loads : string -> result value.

(** A fragment is read through its first key only: the value of that key
    is the category, with the key as its [id], put last, unless it has an
    [id] of its own; whatever follows the first key is dropped. The
    [categoryId] of the output is thus the fragment's own [id] or, without
    one, its key. *)
Theorem parse_v2_fragment (content k : string) (d rest : dict) :
  Str.startswith (String dquote EmptyString) content = true ->
  json_loads ("{" ++ content ++ "}") = Ok (VDict ((KStr k, VDict d) :: rest)) ->
  parse_v2 json_loads content
  = Ok (VDict (if dict_mem (KStr "id") d then d
               else (d ++ [(KStr "id", VStr k)])%list))
  /\ forall v1_data,
      bind (parse_v2 json_loads content) (convert_category TODAY) = Ok v1_data ->
      field "categoryId" v1_data
      = Some (match dict_get (KStr "id") d with
              | Some category_id => category_id
              | None => VStr k
              end).
Proof.
  intros Hstart Hloads.
  assert (Hparse : parse_v2 json_loads content
                   = Ok (VDict (if dict_mem (KStr "id") d then d
                                else (d ++ [(KStr "id", VStr k)])%list))).
  { unfold parse_v2. rewrite Hstart, Hloads.
    cbn [bind py_keys dict_keys map fst py_getitem_key dict_get key_eqb].
    rewrite String.eqb_refl. cbn [bind py_in].
    destruct (dict_mem (KStr "id") d) eqn:Hmem; [reflexivity|].
    cbn [py_setitem of_key]. now rewrite dict_set_new. }
  split; [exact Hparse|].
  intros v1 H. rewrite Hparse in H. cbn [bind] in H.
  unfold convert_category, py_getitem in H. unfold dict_mem in H.
  destruct (dict_get (KStr "id") d) as [cid|] eqn:Eid.
  - rewrite Eid in H. cbn [bind] in H. apply bind_Ok in H as (? & _ & H).
    apply bind_Ok in H as (? & _ & H). apply bind_Ok in H as (? & _ & H).
    injection H as <-. reflexivity.
  - assert (Hget : dict_get (KStr "id") (d ++ [(KStr "id", VStr k)])%list
                   = Some (VStr k)).
    { rewrite <- (dict_set_new "id" (VStr k) d)
        by (unfold dict_mem; now rewrite Eid).
      rewrite dict_get_set. reflexivity. }
    rewrite Hget in H. cbn [bind] in H. apply bind_Ok in H as (? & _ & H).
    apply bind_Ok in H as (? & _ & H). apply bind_Ok in H as (? & _ & H).
    injection H as <-. reflexivity.
Qed.

Lemma convert_category_not_dict (v : value) :
  is_dict v = false -> convert_category TODAY v = Raise TypeError.
Proof. destruct v; try reflexivity. discriminate. Qed.

Lemma parse_v2_fragment_not_dict (content k : string) (v : value) (rest : dict) :
  Str.startswith (String dquote EmptyString) content = true ->
  json_loads ("{" ++ content ++ "}") = Ok (VDict ((KStr k, v) :: rest)) ->
  is_dict v = false ->
  bind (parse_v2 json_loads content) (convert_category TODAY) = Raise TypeError.
Proof.
  intros Hstart Hloads Hv. unfold parse_v2. rewrite Hstart, Hloads.
  cbn [bind py_keys dict_keys map fst py_getitem_key dict_get key_eqb].
  rewrite String.eqb_refl. cbn [bind].
  destruct v as [| | | |s|l|d]; try reflexivity; try discriminate.
  - cbn [py_in bind]. destruct (Str.contains "id" s); reflexivity.
  - cbn [py_in bind]. destruct (existsb (is_str "id") l); reflexivity.
Qed.

(** A file whose text does not start with a double quote and parses to a
    value that is no object, or a fragment whose first value is no object,
    fails with [TypeError]: [convert_file] returns [False] through the
    last clause and writes nothing. (A text that is one JSON string starts
    with a double quote and is read as a fragment.) *)
Theorem not_an_object_fails (input : file) (raw : string) (w : world) :
  content input = Ok raw ->
  (exists v,
      Str.startswith (String dquote EmptyString) (Str.strip raw) = false
      /\ json_loads (Str.strip raw) = Ok v
      /\ is_dict v = false)
  \/ (exists k v rest,
         Str.startswith (String dquote EmptyString) (Str.strip raw) = true
         /\ json_loads ("{" ++ Str.strip raw ++ "}") = Ok (VDict ((KStr k, v) :: rest))
         /\ is_dict v = false) ->
  convert_file TODAY json_loads input w
  = (Ok false,
     {| v1_dir := v1_dir w;
        stdout := (stdout w ++ [ Converting (name input);
                                 ConvertFailed (name input) TypeError ])%list |}).
Proof.
  intros Hraw Hcase. rewrite convert_file_spec.
  assert (Hconv : conversion TODAY json_loads input = Raise TypeError).
  { unfold conversion. rewrite Hraw. cbn [bind].
    destruct Hcase as [(v & Hstart & Hloads & Hv)|(k & v & rest & Hstart & Hloads & Hv)].
    - unfold parse_v2. rewrite Hstart, Hloads. cbn [bind].
      apply convert_category_not_dict, Hv.
    - apply (parse_v2_fragment_not_dict _ k v rest Hstart Hloads Hv). }
  unfold converts, file_written, file_log. rewrite Hconv. reflexivity.
Qed.

End Fragment.

Lemma parse_v2_fragment_witness :
  content two_key_fragment = Ok two_key_text
  /\ parse_v2 Json.loads two_key_text
     = Ok (VDict [ (KStr "label", VStr "Rugs"); (KStr "items", VList []);
                   (KStr "id", VStr "rugs") ])
  /\ forall v1_data,
      bind (parse_v2 Json.loads two_key_text) (convert_category "2025-12-01")
      = Ok v1_data ->
      field "categoryId" v1_data = Some (VStr "rugs").
Proof.
  split; [reflexivity|].
  apply (parse_v2_fragment "2025-12-01" Json.loads two_key_text "rugs"
           [ (KStr "label", VStr "Rugs"); (KStr "items", VList []) ]
           [ (KStr "lamps",
              VDict [ (KStr "items", VList [ VDict [ (KStr "id", VStr "lamp") ] ]) ]) ]).
  - vm_compute. reflexivity.
  - vm_compute. reflexivity.
Defined.

Lemma not_an_object_fails_witness :
  convert_file "2025-12-01" Json.loads list_fragment empty_world
  = (Ok false,
     {| v1_dir := [];
        stdout := [ Converting "list.json";
                    ConvertFailed "list.json" TypeError ] |}).
Proof.
  apply (not_an_object_fails "2025-12-01" Json.loads list_fragment
           (Json.quoted "'rugs': ['id', 'x']") empty_world eq_refl).
  right. exists "rugs", (VList [VStr "id"; VStr "x"]), [].
  repeat split; vm_compute; reflexivity.
Defined.

(** ** The output directory after a run *)

Lemma file_get_put (n m : string) (doc : value) (dir : list (string * value)) :
  file_get n (file_put m doc dir)
  = if String.eqb m n then Some doc else file_get n dir.
Proof.
  induction dir as [|[k d] dir IH]; simpl.
  - destruct (String.eqb m n); reflexivity.
  - destruct (String.eqb k m) eqn:Ekm; simpl.
    + apply String.eqb_eq in Ekm. subst k.
      destruct (String.eqb m n); reflexivity.
    + rewrite IH. destruct (String.eqb k n) eqn:Ekn; [|reflexivity].
      apply String.eqb_eq in Ekn. subst k.
      rewrite String.eqb_sym, Ekm. reflexivity.
Qed.

Lemma file_put_same (n : string) (doc : value) (dir : list (string * value)) :
  file_get n dir = Some doc -> file_put n doc dir = dir.
Proof.
  induction dir as [|[k d] dir IH]; simpl; [discriminate|].
  destruct (String.eqb k n); intros H.
  - now injection H as ->.
  - now rewrite IH.
Qed.

Section Directory.

Variable TODAY : string.
Variable json_loads : string -> result value.

Lemma main_nonempty (v2_files : list file) (w : world) :
  v2_files <> [] ->
  main TODAY json_loads (Some v2_files) w
  = (Ok (if forallb (converts TODAY json_loads) v2_files then 0%Z else 1%Z),
     {| v1_dir := fold_left (fun dir f => file_written TODAY json_loads f dir)
                            v2_files (v1_dir w);
        stdout := (stdout w
                   ++ [Found (List.length v2_files)]
                   ++ flat_map (file_log TODAY json_loads) v2_files
                   ++ [Summary (List.length (filter (converts TODAY json_loads) v2_files))
                               (List.length
                                  (filter (fun f => negb (converts TODAY json_loads f))
                                          v2_files))])%list |}).
Proof.
  intros Hne. destruct v2_files as [|f files]; [contradiction|].
  unfold main. unfold mbind at 1. unfold print at 1.
  unfold mbind at 1. rewrite convert_files_spec.
  cbn [fst snd v1_dir stdout Nat.add]. unfold mbind, print, ret.
  cbn [v1_dir stdout]. rewrite no_failure_forallb, <- !app_assoc.
  reflexivity.
Qed.

Lemma written_kept (v2_files : list file) :
  forall dir n,
    (forall f, In f v2_files -> name f = n -> converts TODAY json_loads f = false) ->
    file_get n (fold_left (fun dir f => file_written TODAY json_loads f dir)
                          v2_files dir)
    = file_get n dir.
Proof.
  induction v2_files as [|f files IH]; intros dir n H; [reflexivity|].
  cbn [fold_left]. rewrite IH by (intros g Hg; apply H; now right).
  unfold file_written. specialize (H f (or_introl eq_refl)).
  unfold converts in H.
  destruct (conversion TODAY json_loads f); [|reflexivity].
  rewrite file_get_put. destruct (String.eqb (name f) n) eqn:E; [|reflexivity].
  apply String.eqb_eq in E. specialize (H E). discriminate.
Qed.

Lemma written_found (v2_files : list file) :
  NoDup (map name v2_files) ->
  forall dir f v1_data,
    In f v2_files ->
    conversion TODAY json_loads f = Ok v1_data ->
    file_get (name f) (fold_left (fun dir f => file_written TODAY json_loads f dir)
                                 v2_files dir)
    = Some v1_data.
Proof.
  induction v2_files as [|g files IH]; intros Hnd dir f doc Hin Hconv;
    [contradiction|].
  simpl in Hnd. inversion Hnd as [|? ? Hnotin Hnd']; subst.
  cbn [fold_left]. destruct Hin as [->|Hin].
  - rewrite written_kept.
    + unfold file_written. rewrite Hconv, file_get_put, String.eqb_refl.
      reflexivity.
    + intros h Hh Hname. exfalso. apply Hnotin. rewrite <- Hname.
      now apply in_map.
  - apply (IH Hnd' _ _ _ Hin Hconv).
Qed.

Lemma rerun_fixed (v2_files : list file) (dir : list (string * value)) :
  (forall f v1_data, In f v2_files -> conversion TODAY json_loads f = Ok v1_data ->
                     file_get (name f) dir = Some v1_data) ->
  fold_left (fun dir f => file_written TODAY json_loads f dir) v2_files dir = dir.
Proof.
  induction v2_files as [|f files IH]; intros H; [reflexivity|].
  cbn [fold_left].
  assert (Hstep : file_written TODAY json_loads f dir = dir).
  { unfold file_written.
    destruct (conversion TODAY json_loads f) as [doc|] eqn:E; [|reflexivity].
    apply file_put_same, (H f doc (or_introl eq_refl) E). }
  rewrite Hstep. apply IH. intros g doc Hg. apply H. now right.
Qed.

(** Running [main] again over the same files, on the same day, leaves the
    output directory exactly as the first run left it. *)
Theorem main_rerun (v2_files : list file) (w : world) :
  v2_files <> [] ->
  NoDup (map name v2_files) ->
  v1_dir (snd (main TODAY json_loads (Some v2_files)
                    (snd (main TODAY json_loads (Some v2_files) w))))
  = v1_dir (snd (main TODAY json_loads (Some v2_files) w)).
Proof.
  intros Hne Hnd. rewrite !main_nonempty by exact Hne. cbn [snd v1_dir].
  apply rerun_fixed. intros f doc. apply (written_found _ Hnd).
Qed.

End Directory.

Lemma sample_files_distinct : NoDup (map name sample_files).
Proof.
  repeat constructor; simpl; intuition discriminate.
Qed.

Lemma main_rerun_witness :
  v1_dir (snd (main "2025-12-01" Json.loads (Some sample_files)
                    (snd (main "2025-12-01" Json.loads (Some sample_files)
                               stale_world))))
  = v1_dir (snd (main "2025-12-01" Json.loads (Some sample_files) stale_world)).
Proof.
  assert (Hne : sample_files <> []) by discriminate.
  exact (main_rerun "2025-12-01" Json.loads sample_files stale_world
           Hne sample_files_distinct).
Defined.

(** ** The pipeline over a file system that can refuse *)

Lemma fs_put_put (n : string) (d d' : Fs.document)
      (files : list (string * Fs.document)) :
  Fs.put n d (Fs.put n d' files) = Fs.put n d files.
Proof.
  induction files as [|[k x] files IH]; simpl.
  - now rewrite String.eqb_refl.
  - destruct (String.eqb k n) eqn:E; simpl; rewrite E; [reflexivity|].
    now rewrite IH.
Qed.

Lemma fs_get_put (n m : string) (d : Fs.document)
      (files : list (string * Fs.document)) :
  Fs.get n (Fs.put m d files)
  = if String.eqb m n then Some d else Fs.get n files.
Proof.
  induction files as [|[k x] files IH]; simpl.
  - destruct (String.eqb m n); reflexivity.
  - destruct (String.eqb k m) eqn:Ekm; simpl.
    + apply String.eqb_eq in Ekm. subst k.
      destruct (String.eqb m n); reflexivity.
    + rewrite IH. destruct (String.eqb k n) eqn:Ekn; [|reflexivity].
      apply String.eqb_eq in Ekn. subst k.
      rewrite String.eqb_sym, Ekm. reflexivity.
Qed.

Section FsPipeline.

Variable TODAY : string.
Variable json_loads : string -> result value.
Variable json_dump : value -> result unit.

(** In a directory, [convert_file] returns whether the conversion and the
    write both complete; the file is cut to nothing as soon as the
    conversion has succeeded. *)
Lemma fs_convert_file_spec (input : file) (files : list (string * Fs.document))
      (out : list message) :
  Fs.convert_file TODAY json_loads json_dump input
                  {| Fs.v1 := Fs.Directory files; Fs.stdout := out |}
  = (Ok (Fs.succeeds TODAY json_loads json_dump input),
     {| Fs.v1 := Fs.Directory (Fs.written TODAY json_loads json_dump input files);
        Fs.stdout := (out ++ Fs.log TODAY json_loads json_dump input)%list |}).
Proof.
  unfold Fs.convert_file, Fs.try_except, Fs.convert_file_try, Fs.succeeds,
    Fs.written, Fs.log, Fs.outcome, conversion.
  unfold Fs.mbind at 1. unfold Fs.print at 1. unfold Fs.mbind at 1.
  unfold Fs.lift at 1. cbn [Fs.v1 Fs.stdout].
  destruct (content input) as [raw|e]; cbn [bind].
  2:{ destruct e; cbn; rewrite <- app_assoc; reflexivity. }
  unfold Fs.mbind at 1. unfold Fs.lift at 1.
  destruct (parse_v2 json_loads (Str.strip raw)) as [v2_data|e]; cbn [bind].
  2:{ destruct e; cbn; rewrite <- app_assoc; reflexivity. }
  unfold Fs.mbind at 1. unfold Fs.lift at 1.
  destruct (convert_category TODAY v2_data) as [v1_data|e] eqn:Ecat; cbn [bind].
  2:{ destruct e; cbn; rewrite <- app_assoc; reflexivity. }
  unfold Fs.mbind at 1. unfold Fs.open_w at 1. cbn [Fs.v1 Fs.stdout].
  unfold Fs.mbind at 1. unfold Fs.dump at 1. cbn [Fs.v1 Fs.stdout].
  destruct (json_dump v1_data) as [u|e]; cbn [bind].
  2:{ destruct e; cbn; rewrite <- app_assoc; reflexivity. }
  rewrite fs_put_put.
  destruct (convert_category_shape _ _ _ Ecat) as (cid & items_dict & -> & Hshape).
  unfold Fs.mbind, Fs.lift, Fs.print, Fs.ret.
  cbn [py_getitem dict_get key_eqb String.eqb Ascii.eqb Bool.eqb py_len
       py_values Fs.v1 Fs.stdout].
  rewrite (count_links_shape _ Hshape).
  cbn [Fs.v1 Fs.stdout]. rewrite <- app_assoc.
  unfold item_count, link_count. cbn [field dict_get key_eqb String.eqb
    Ascii.eqb Bool.eqb]. rewrite map_map. reflexivity.
Qed.

(** Without a directory, the file cannot be opened for writing. *)
Lemma fs_convert_file_no_directory (input : file) (n : Fs.node)
      (out : list message) :
  n = Fs.Missing \/ n = Fs.PlainFile ->
  Fs.convert_file TODAY json_loads json_dump input
                  {| Fs.v1 := n; Fs.stdout := out |}
  = (Ok false,
     {| Fs.v1 := n;
        Fs.stdout := (out ++ [ Converting (name input);
                               failure_message (name input)
                                 match conversion TODAY json_loads input with
                                 | Ok _ => OSError
                                 | Raise e => e
                                 end ])%list |}).
Proof.
  intros Hn.
  unfold Fs.convert_file, Fs.try_except, Fs.convert_file_try, conversion.
  unfold Fs.mbind at 1. unfold Fs.print at 1. unfold Fs.mbind at 1.
  unfold Fs.lift at 1. cbn [Fs.v1 Fs.stdout].
  destruct (content input) as [raw|e]; cbn [bind].
  2:{ destruct e; cbn; rewrite <- app_assoc; reflexivity. }
  unfold Fs.mbind at 1. unfold Fs.lift at 1.
  destruct (parse_v2 json_loads (Str.strip raw)) as [v2_data|e]; cbn [bind].
  2:{ destruct e; cbn; rewrite <- app_assoc; reflexivity. }
  unfold Fs.mbind at 1. unfold Fs.lift at 1.
  destruct (convert_category TODAY v2_data) as [v1_data|e]; cbn [bind].
  2:{ destruct e; cbn; rewrite <- app_assoc; reflexivity. }
  unfold Fs.mbind at 1. unfold Fs.open_w at 1. cbn [Fs.v1 Fs.stdout].
  destruct Hn as [-> | ->]; cbn; rewrite <- app_assoc; reflexivity.
Qed.

Lemma fs_convert_files_spec (v2_files : list file) :
  forall success_count fail_count files out,
    Fs.convert_files TODAY json_loads json_dump v2_files success_count fail_count
                     {| Fs.v1 := Fs.Directory files; Fs.stdout := out |}
    = (Ok (success_count
           + List.length (filter (Fs.succeeds TODAY json_loads json_dump) v2_files),
           fail_count
           + List.length
               (filter (fun f => negb (Fs.succeeds TODAY json_loads json_dump f))
                       v2_files)),
       {| Fs.v1 := Fs.Directory
                     (fold_left (fun fs f => Fs.written TODAY json_loads json_dump f fs)
                                v2_files files);
          Fs.stdout := (out ++ flat_map (Fs.log TODAY json_loads json_dump)
                                        v2_files)%list |}).
Proof.
  induction v2_files as [|f rest IH]; intros s n files out.
  - cbn. now rewrite !Nat.add_0_r, app_nil_r.
  - cbn [Fs.convert_files]. unfold Fs.mbind at 1. rewrite fs_convert_file_spec.
    cbn [filter flat_map fold_left negb].
    destruct (Fs.succeeds TODAY json_loads json_dump f); rewrite IH;
      cbn [List.length negb]; rewrite <- app_assoc, ?Nat.add_succ_r; reflexivity.
Qed.

Lemma fs_no_failure_forallb (v2_files : list file) :
  Nat.eqb (List.length
             (filter (fun f => negb (Fs.succeeds TODAY json_loads json_dump f))
                     v2_files)) 0
  = forallb (Fs.succeeds TODAY json_loads json_dump) v2_files.
Proof.
  induction v2_files as [|f files IH]; [reflexivity|].
  cbn [filter forallb].
  destruct (Fs.succeeds TODAY json_loads json_dump f); [exact IH|reflexivity].
Qed.

Lemma fs_main_files (v2_files : list file) (n : Fs.node) (out : list message) :
  v2_files <> [] ->
  n <> Fs.PlainFile ->
  Fs.main TODAY json_loads json_dump (Some v2_files)
          {| Fs.v1 := n; Fs.stdout := out |}
  = (Ok (if forallb (Fs.succeeds TODAY json_loads json_dump) v2_files
         then 0%Z else 1%Z),
     {| Fs.v1 := Fs.Directory
                   (fold_left (fun fs f => Fs.written TODAY json_loads json_dump f fs)
                              v2_files (Fs.made n));
        Fs.stdout :=
          (out
           ++ [Found (List.length v2_files)]
           ++ flat_map (Fs.log TODAY json_loads json_dump) v2_files
           ++ [Summary
                 (List.length (filter (Fs.succeeds TODAY json_loads json_dump)
                                      v2_files))
                 (List.length
                    (filter (fun f => negb (Fs.succeeds TODAY json_loads json_dump f))
                            v2_files))])%list |}).
Proof.
  intros Hne Hn. destruct v2_files as [|f files]; [contradiction|].
  destruct n as [| |dir]; [|contradiction|];
    unfold Fs.main; unfold Fs.mbind at 1; unfold Fs.mkdir;
    cbn [Fs.v1 Fs.stdout]; unfold Fs.mbind at 1; unfold Fs.print at 1;
    cbn [Fs.v1 Fs.stdout]; unfold Fs.mbind at 1;
    rewrite fs_convert_files_spec;
    cbn [fst snd Nat.add Fs.made]; unfold Fs.mbind, Fs.print, Fs.ret;
    cbn [Fs.v1 Fs.stdout]; rewrite fs_no_failure_forallb, <- !app_assoc;
    reflexivity.
Qed.

End FsPipeline.

Lemma fs_written_kept (TODAY : string) (json_loads : string -> result value)
      (json_dump : value -> result unit) (v2_files : list file) :
  forall files n,
    (forall f, In f v2_files -> name f = n ->
               exists e, conversion TODAY json_loads f = Raise e) ->
    Fs.get n (fold_left (fun fs f => Fs.written TODAY json_loads json_dump f fs)
                        v2_files files)
    = Fs.get n files.
Proof.
  induction v2_files as [|f rest IH]; intros files n H; [reflexivity|].
  cbn [fold_left]. rewrite IH by (intros g Hg; apply H; now right).
  unfold Fs.written. specialize (H f (or_introl eq_refl)).
  destruct (conversion TODAY json_loads f) as [doc|e]; [|reflexivity].
  rewrite fs_get_put. destruct (String.eqb (name f) n) eqn:E; [|reflexivity].
  apply String.eqb_eq in E. destruct (H E) as [e He]. discriminate.
Qed.

Lemma fs_written_other (TODAY : string) (json_loads : string -> result value)
      (json_dump : value -> result unit) (v2_files : list file) :
  forall files n,
    ~ In n (map name v2_files) ->
    Fs.get n (fold_left (fun fs f => Fs.written TODAY json_loads json_dump f fs)
                        v2_files files)
    = Fs.get n files.
Proof.
  induction v2_files as [|f rest IH]; intros files n H; [reflexivity|].
  cbn [fold_left]. rewrite IH by (intros Hin; apply H; now right).
  unfold Fs.written.
  destruct (conversion TODAY json_loads f) as [doc|e]; [|reflexivity].
  rewrite fs_get_put. destruct (String.eqb (name f) n) eqn:E; [|reflexivity].
  apply String.eqb_eq in E. exfalso. apply H. left. exact E.
Qed.

Lemma fs_written_found (TODAY : string) (json_loads : string -> result value)
      (json_dump : value -> result unit) (v2_files : list file) :
  NoDup (map name v2_files) ->
  forall files f v1_data,
    In f v2_files ->
    conversion TODAY json_loads f = Ok v1_data ->
    Fs.get (name f)
           (fold_left (fun fs f => Fs.written TODAY json_loads json_dump f fs)
                      v2_files files)
    = Some (match json_dump v1_data with
            | Ok _ => Fs.Written v1_data
            | Raise _ => Fs.Partial
            end).
Proof.
  induction v2_files as [|g rest IH]; intros Hnd files f doc Hin Hconv;
    [contradiction|].
  simpl in Hnd. inversion Hnd as [|? ? Hnotin Hnd']; subst.
  cbn [fold_left]. destruct Hin as [->|Hin].
  - rewrite fs_written_other by exact Hnotin.
    unfold Fs.written. rewrite Hconv, fs_get_put, String.eqb_refl. reflexivity.
  - apply (IH Hnd' _ _ _ Hin Hconv).
Qed.

Section FsOutcome.

Variable TODAY : string.
Variable json_loads : string -> result value.
Variable json_dump : value -> result unit.

(** [convert_file] never raises. When the read, the parse or the
    conversion raises, it returns [False] and leaves the directory as it
    was. When they succeed, the output file is opened, and so cut to
    nothing, before [json.dump] runs: if [json.dump] returns, the file
    holds the document and the result is [True]; if it raises, the result
    is [False] and the file, an older output of that name included, is
    left cut short. *)
Theorem fs_convert_file_outcome (input : file)
        (files : list (string * Fs.document)) (out : list message) :
  (forall e,
      conversion TODAY json_loads input = Raise e ->
      Fs.convert_file TODAY json_loads json_dump input
                      {| Fs.v1 := Fs.Directory files; Fs.stdout := out |}
      = (Ok false,
         {| Fs.v1 := Fs.Directory files;
            Fs.stdout := (out ++ [ Converting (name input);
                                   failure_message (name input) e ])%list |}))
  /\ (forall v1_data u,
         conversion TODAY json_loads input = Ok v1_data ->
         json_dump v1_data = Ok u ->
         Fs.convert_file TODAY json_loads json_dump input
                         {| Fs.v1 := Fs.Directory files; Fs.stdout := out |}
         = (Ok true,
            {| Fs.v1 := Fs.Directory (Fs.put (name input) (Fs.Written v1_data) files);
               Fs.stdout := (out ++ [ Converting (name input);
                                      Converted (name input) (item_count v1_data)
                                                (link_count v1_data) ])%list |}))
  /\ (forall v1_data e,
         conversion TODAY json_loads input = Ok v1_data ->
         json_dump v1_data = Raise e ->
         Fs.convert_file TODAY json_loads json_dump input
                         {| Fs.v1 := Fs.Directory files; Fs.stdout := out |}
         = (Ok false,
            {| Fs.v1 := Fs.Directory (Fs.put (name input) Fs.Partial files);
               Fs.stdout := (out ++ [ Converting (name input);
                                      failure_message (name input) e ])%list |}))
  /\ (forall w, exists ok w',
         Fs.convert_file TODAY json_loads json_dump input w = (Ok ok, w')).
Proof.
  split; [|split; [|split]].
  - intros e He. rewrite fs_convert_file_spec.
    unfold Fs.succeeds, Fs.written, Fs.log, Fs.outcome. rewrite He. reflexivity.
  - intros doc u Hc Hd. rewrite fs_convert_file_spec.
    unfold Fs.succeeds, Fs.written, Fs.log, Fs.outcome.
    rewrite Hc. cbn [bind]. rewrite Hd. reflexivity.
  - intros doc e Hc Hd. rewrite fs_convert_file_spec.
    unfold Fs.succeeds, Fs.written, Fs.log, Fs.outcome.
    rewrite Hc. cbn [bind]. rewrite Hd. reflexivity.
  - intros [[| |dir] o].
    + rewrite fs_convert_file_no_directory by (now left). eexists _, _. reflexivity.
    + rewrite fs_convert_file_no_directory by (now right). eexists _, _. reflexivity.
    + rewrite fs_convert_file_spec. eexists _, _. reflexivity.
Qed.

(** [main] raises in one case only: the input directory exists and [v1]
    is a plain file, where [mkdir] raises before anything is printed.
    Without an input directory it touches nothing and returns 1. With one,
    it makes [v1] when missing, even when there is no file to convert,
    where it returns 1. Over files, it returns 0 exactly when every file
    is converted and written, else 1. *)
Theorem fs_main_outcome (v2_dir : option (list file)) (n : Fs.node)
        (out : list message) :
  (v2_dir = None ->
   Fs.main TODAY json_loads json_dump v2_dir {| Fs.v1 := n; Fs.stdout := out |}
   = (Ok 1%Z, {| Fs.v1 := n; Fs.stdout := (out ++ [DirNotFound])%list |}))
  /\ (v2_dir <> None -> n = Fs.PlainFile ->
      Fs.main TODAY json_loads json_dump v2_dir {| Fs.v1 := n; Fs.stdout := out |}
      = (Raise OSError, {| Fs.v1 := n; Fs.stdout := out |}))
  /\ (v2_dir = Some [] -> n <> Fs.PlainFile ->
      Fs.main TODAY json_loads json_dump v2_dir {| Fs.v1 := n; Fs.stdout := out |}
      = (Ok 1%Z, {| Fs.v1 := Fs.Directory (Fs.made n);
                    Fs.stdout := (out ++ [NoFiles])%list |}))
  /\ (forall v2_files,
         v2_dir = Some v2_files -> v2_files <> [] -> n <> Fs.PlainFile ->
         exists w',
           Fs.main TODAY json_loads json_dump v2_dir
                   {| Fs.v1 := n; Fs.stdout := out |}
           = (Ok (if forallb (Fs.succeeds TODAY json_loads json_dump) v2_files
                  then 0%Z else 1%Z), w')
           /\ Fs.v1 w'
              = Fs.Directory
                  (fold_left (fun fs f => Fs.written TODAY json_loads json_dump f fs)
                             v2_files (Fs.made n)))
  /\ ((exists e w',
          Fs.main TODAY json_loads json_dump v2_dir
                  {| Fs.v1 := n; Fs.stdout := out |} = (Raise e, w'))
      <-> v2_dir <> None /\ n = Fs.PlainFile).
Proof.
  assert (Hnone : v2_dir = None ->
            Fs.main TODAY json_loads json_dump v2_dir
                    {| Fs.v1 := n; Fs.stdout := out |}
            = (Ok 1%Z, {| Fs.v1 := n; Fs.stdout := (out ++ [DirNotFound])%list |}))
    by (intros ->; reflexivity).
  assert (Hplain : v2_dir <> None -> n = Fs.PlainFile ->
            Fs.main TODAY json_loads json_dump v2_dir
                    {| Fs.v1 := n; Fs.stdout := out |}
            = (Raise OSError, {| Fs.v1 := n; Fs.stdout := out |})).
  { intros Hsome ->. destruct v2_dir as [files|]; [reflexivity|congruence]. }
  assert (Hempty : v2_dir = Some [] -> n <> Fs.PlainFile ->
            Fs.main TODAY json_loads json_dump v2_dir
                    {| Fs.v1 := n; Fs.stdout := out |}
            = (Ok 1%Z, {| Fs.v1 := Fs.Directory (Fs.made n);
                          Fs.stdout := (out ++ [NoFiles])%list |})).
  { intros -> Hn. destruct n; [reflexivity|contradiction|reflexivity]. }
  split; [exact Hnone|]. split; [exact Hplain|]. split; [exact Hempty|].
  split.
  - intros files -> Hne Hn. rewrite fs_main_files by assumption.
    eexists. split; reflexivity.
  - split.
    + intros (e & w' & H). destruct v2_dir as [files|].
      * split; [discriminate|].
        destruct n as [| |dir]; [|reflexivity|]; exfalso;
          (destruct files as [|f files];
           [rewrite Hempty in H by (reflexivity || discriminate)
           |rewrite fs_main_files in H by discriminate]; discriminate).
      * rewrite Hnone in H by reflexivity. discriminate.
    + intros [Hsome Hn]. rewrite (Hplain Hsome Hn). eexists _, _. reflexivity.
Qed.

(** After a run over files of distinct names, in a directory or making
    one: the file of each input whose conversion succeeds holds the
    document when [json.dump] returned and is cut short when it raised;
    under every other name, and under the name of an input whose read,
    parse or conversion fails, the directory holds what it held before. *)
Theorem fs_main_output_directory (v2_files : list file) (n : Fs.node)
        (out : list message) :
  v2_files <> [] ->
  n <> Fs.PlainFile ->
  NoDup (map name v2_files) ->
  exists final,
    Fs.v1 (snd (Fs.main TODAY json_loads json_dump (Some v2_files)
                        {| Fs.v1 := n; Fs.stdout := out |}))
    = Fs.Directory final
    /\ (forall f v1_data u,
           In f v2_files ->
           conversion TODAY json_loads f = Ok v1_data ->
           json_dump v1_data = Ok u ->
           Fs.get (name f) final = Some (Fs.Written v1_data))
    /\ (forall f v1_data e,
           In f v2_files ->
           conversion TODAY json_loads f = Ok v1_data ->
           json_dump v1_data = Raise e ->
           Fs.get (name f) final = Some Fs.Partial)
    /\ (forall file_name,
           (forall f, In f v2_files -> name f = file_name ->
                      exists e, conversion TODAY json_loads f = Raise e) ->
           Fs.get file_name final = Fs.get file_name (Fs.made n)).
Proof.
  intros Hne Hn Hnd. rewrite fs_main_files by assumption. cbn [snd Fs.v1].
  eexists. split; [reflexivity|]. split; [|split].
  - intros f doc u Hin Hc Hd.
    rewrite (fs_written_found _ _ _ _ Hnd _ _ _ Hin Hc), Hd. reflexivity.
  - intros f doc e Hin Hc Hd.
    rewrite (fs_written_found _ _ _ _ Hnd _ _ _ Hin Hc), Hd. reflexivity.
  - intros file_name H. apply fs_written_kept. exact H.
Qed.

End FsOutcome.

(** ** The two models of the pipeline agree

    In a directory where every [json.dump] returns, the runs of [Fs.main]
    are the runs of [main]: same exit status, same console, same
    documents. *)

Lemma fs_put_whole (n : string) (doc : value) (dir : list (string * value)) :
  Fs.put n (Fs.Written doc) (Fs.whole dir) = Fs.whole (file_put n doc dir).
Proof.
  induction dir as [|[k d] dir IH]; [reflexivity|]. simpl.
  destruct (String.eqb k n); simpl; [reflexivity|]. now rewrite <- IH.
Qed.

Section Agreement.

Variable TODAY : string.
Variable json_loads : string -> result value.
Variable json_dump : value -> result unit.
Hypothesis json_dump_returns : forall doc, json_dump doc = Ok tt.

Lemma fs_outcome_conversion (input : file) :
  Fs.outcome TODAY json_loads json_dump input = conversion TODAY json_loads input.
Proof.
  unfold Fs.outcome. destruct (conversion TODAY json_loads input) as [doc|e];
    [|reflexivity].
  cbn [bind]. now rewrite json_dump_returns.
Qed.

Lemma fs_written_whole (v2_files : list file) :
  forall dir,
    fold_left (fun fs f => Fs.written TODAY json_loads json_dump f fs)
              v2_files (Fs.whole dir)
    = Fs.whole (fold_left (fun dir f => file_written TODAY json_loads f dir)
                          v2_files dir).
Proof.
  induction v2_files as [|f rest IH]; intros dir; [reflexivity|].
  cbn [fold_left]. rewrite <- IH. f_equal.
  unfold Fs.written, file_written.
  destruct (conversion TODAY json_loads f) as [doc|e]; [|reflexivity].
  rewrite json_dump_returns. apply fs_put_whole.
Qed.

Lemma fs_main_agrees (v2_dir : option (list file)) (dir : list (string * value))
      (out : list message) :
  Fs.main TODAY json_loads json_dump v2_dir
          {| Fs.v1 := Fs.Directory (Fs.whole dir); Fs.stdout := out |}
  = (fst (main TODAY json_loads v2_dir {| v1_dir := dir; stdout := out |}),
     {| Fs.v1 := Fs.Directory
                   (Fs.whole
                      (v1_dir (snd (main TODAY json_loads v2_dir
                                         {| v1_dir := dir; stdout := out |}))));
        Fs.stdout := stdout (snd (main TODAY json_loads v2_dir
                                       {| v1_dir := dir; stdout := out |})) |}).
Proof.
  destruct v2_dir as [[|f files]|]; try reflexivity.
  rewrite fs_main_files, main_nonempty by discriminate.
  cbn [fst snd v1_dir stdout Fs.made]. rewrite fs_written_whole.
  assert (Hs : forall g, Fs.succeeds TODAY json_loads json_dump g
                         = converts TODAY json_loads g).
  { intros g. unfold Fs.succeeds, converts. now rewrite fs_outcome_conversion. }
  assert (Hl : forall g, Fs.log TODAY json_loads json_dump g
                         = file_log TODAY json_loads g).
  { intros g. unfold Fs.log, file_log. now rewrite fs_outcome_conversion. }
  assert (Hall : forall l, forallb (Fs.succeeds TODAY json_loads json_dump) l
                           = forallb (converts TODAY json_loads) l).
  { induction l as [|g l IH]; [reflexivity|]. simpl. now rewrite Hs, IH. }
  rewrite Hall, (filter_ext _ _ Hs).
  rewrite (filter_ext (fun g => negb (Fs.succeeds TODAY json_loads json_dump g))
                      (fun g => negb (converts TODAY json_loads g)))
    by (intros g; now rewrite Hs).
  rewrite (flat_map_ext _ _ Hl). reflexivity.
Qed.

End Agreement.

(** ** The file-system theorems at sample inputs *)

Lemma fs_convert_file_outcome_witness :
  Fs.convert_file "2025-12-01" Json.loads Fs.disk_full object_file
                  {| Fs.v1 := Fs.Directory older_outputs; Fs.stdout := [] |}
  = (Ok false,
     {| Fs.v1 := Fs.Directory
                   [ ("broken.json", Fs.Written (VStr "an older document"));
                     ("lighting.json", Fs.Partial) ];
        Fs.stdout := [ Converting "lighting.json";
                       ConvertFailed "lighting.json" OSError ] |})
  /\ Fs.convert_file "2025-12-01" Json.loads Fs.writes example_file
                     {| Fs.v1 := Fs.Directory older_outputs; Fs.stdout := [] |}
     = (Ok true,
        {| Fs.v1 := Fs.Directory
                      [ ("broken.json", Fs.Written (VStr "an older document"));
                        ("lighting.json", Fs.Written (VStr "an older lighting"));
                        ("bedding_sleep.json",
                         Fs.Written (example_output "2025-12-01")) ];
           Fs.stdout := [ Converting "bedding_sleep.json";
                          Converted "bedding_sleep.json" 1 1 ] |}).
Proof.
  split.
  - destruct (fs_convert_file_outcome "2025-12-01" Json.loads Fs.disk_full
                object_file older_outputs []) as (_ & _ & Hfail & _).
    assert (Hc : exists doc, conversion "2025-12-01" Json.loads object_file = Ok doc)
      by (eexists; reflexivity).
    destruct Hc as [doc Hc]. rewrite (Hfail doc OSError Hc eq_refl). reflexivity.
  - destruct (fs_convert_file_outcome "2025-12-01" Json.loads Fs.writes
                example_file older_outputs []) as (_ & Hok & _ & _).
    assert (Hc : conversion "2025-12-01" Json.loads example_file
                 = Ok (example_output "2025-12-01"))
      by (vm_compute; reflexivity).
    rewrite (Hok _ tt Hc eq_refl). reflexivity.
Defined.

Lemma fs_main_outcome_witness :
  Fs.main "2025-12-01" Json.loads Fs.writes (Some sample_files)
          {| Fs.v1 := Fs.PlainFile; Fs.stdout := [] |}
  = (Raise OSError, {| Fs.v1 := Fs.PlainFile; Fs.stdout := [] |})
  /\ Fs.main "2025-12-01" Json.loads Fs.writes (Some [])
             {| Fs.v1 := Fs.Missing; Fs.stdout := [] |}
     = (Ok 1%Z, {| Fs.v1 := Fs.Directory []; Fs.stdout := [NoFiles] |})
  /\ Fs.main "2025-12-01" Json.loads Fs.writes None
             {| Fs.v1 := Fs.Missing; Fs.stdout := [] |}
     = (Ok 1%Z, {| Fs.v1 := Fs.Missing; Fs.stdout := [DirNotFound] |}).
Proof.
  split; [|split].
  - apply (proj1 (proj2 (fs_main_outcome "2025-12-01" Json.loads Fs.writes
                                         (Some sample_files) Fs.PlainFile [])));
      [discriminate|reflexivity].
  - apply (proj1 (proj2 (proj2 (fs_main_outcome "2025-12-01" Json.loads Fs.writes
                                                (Some []) Fs.Missing []))));
      [reflexivity|discriminate].
  - apply (proj1 (fs_main_outcome "2025-12-01" Json.loads Fs.writes
                                  None Fs.Missing [])).
    reflexivity.
Defined.

Lemma fs_main_output_directory_witness :
  (sample_files <> [] /\ NoDup (map name sample_files))
  /\ exists final,
      Fs.v1 (snd (Fs.main "2025-12-01" Json.loads Fs.disk_full (Some sample_files)
                          {| Fs.v1 := Fs.Directory older_outputs;
                             Fs.stdout := [] |}))
      = Fs.Directory final
      /\ Fs.get "lighting.json" final = Some Fs.Partial
      /\ Fs.get "broken.json" final
         = Some (Fs.Written (VStr "an older document")).
Proof.
  assert (Hne : sample_files <> []) by discriminate.
  split; [split; [exact Hne|exact sample_files_distinct]|].
  destruct (fs_main_output_directory "2025-12-01" Json.loads Fs.disk_full
              sample_files (Fs.Directory older_outputs) [] Hne
              ltac:(discriminate) sample_files_distinct)
    as (final & Hfinal & _ & Hcut & Hkept).
  exists final. split; [exact Hfinal|]. split.
  - assert (Hc : exists doc, conversion "2025-12-01" Json.loads object_file = Ok doc)
      by (eexists; reflexivity).
    destruct Hc as [doc Hc].
    apply (Hcut object_file doc OSError);
      [right; right; left; reflexivity|exact Hc|reflexivity].
  - rewrite Hkept; [reflexivity|].
    intros f [<-|[<-|[<-|[]]]] Hname; try discriminate Hname.
    eexists. vm_compute. reflexivity.
Defined.
